(** * RachaAI WhatsApp microservice: a shallow embedding and its properties

    The development follows the service's single source file: the
    utility functions ([formatPhoneNumber], [randomDelay]), the Supabase
    session-store adapter ([useSupabaseAuthState]), the connection
    manager ([connectToWhatsApp] and its [connection.update] handler),
    the deliver-text operation ([sendWhatsAppMessage]) and the Express
    routes.

    JavaScript strings are modelled as [string] (a sequence of bytes, the
    UTF-8 encoding of the text).  Every operation the service performs on
    a string either looks at ASCII digits or concatenates, so the byte
    view and JavaScript's UTF-16 code-unit view agree on all results
    (every byte of a non-ASCII character is at least 128 and hence a
    non-digit, exactly as every non-ASCII code unit is). *)

From Stdlib Require Import ZArith Ascii String Bool List Lia.
From stdpp Require Import base option gmap strings pretty.

Local Open Scope Z_scope.

(* ===================================================================== *)
(** * JavaScript string primitives used by the service *)
(* ===================================================================== *)

Module JsString.

(** The character class [\d]: the ten ASCII digits. *)
Definition is_digit (c : ascii) : bool :=
  let n := N_of_ascii c in ((48 <=? n) && (n <=? 57))%N.

(** [s.replace(/\D/g, '')]: every character outside [\d] is deleted. *)
Fixpoint replace_non_digits (s : string) : string :=
  match s with
  | EmptyString => EmptyString
  | String c rest =>
      if is_digit c then String c (replace_non_digits rest)
      else replace_non_digits rest
  end.

(** [s.startsWith(p)]. *)
Fixpoint startsWith (s p : string) {struct p} : bool :=
  match p with
  | EmptyString => true
  | String pc p' =>
      match s with
      | EmptyString => false
      | String sc s' => if Ascii.eqb sc pc then startsWith s' p' else false
      end
  end.

(** [s.endsWith(p)] is not used by the service; it is the observation
    the properties of [formatPhoneNumber] are stated with. *)
Fixpoint endsWith (s p : string) : bool :=
  if String.eqb s p then true
  else match s with
       | EmptyString => false
       | String _ s' => endsWith s' p
       end.

(** [s.substring(start)]: the characters from index [start] to the end,
    the empty string when [start] is past the end. *)
Fixpoint substring (s : string) (start : nat) {struct start} : string :=
  match start, s with
  | O, _ => s
  | S _, EmptyString => EmptyString
  | S n, String _ rest => substring rest n
  end.

(** [hay.includes(needle)]. *)
Fixpoint includes (hay needle : string) : bool :=
  if startsWith hay needle then true
  else match hay with
       | EmptyString => false
       | String _ hay' => includes hay' needle
       end.

(** Every character of [s] is a digit. *)
Fixpoint all_digits (s : string) : bool :=
  match s with
  | EmptyString => true
  | String c rest => is_digit c && all_digits rest
  end.

End JsString.

(* ===================================================================== *)
(** * Utility functions *)
(* ===================================================================== *)

(** The country code that is prepended, and the WhatsApp address suffix:
    the two literals of [formatPhoneNumber]. *)
Definition COUNTRY_CODE : string := "55".
Definition WHATSAPP_SUFFIX : string := "@s.whatsapp.net".

(** [formatPhoneNumber(number)] for a string argument:
<<
    let cleaned = number.replace(/\D/g, '');
    if (cleaned.startsWith('0')) cleaned = cleaned.substring(1);
    if (!cleaned.startsWith('55')) cleaned = '55' + cleaned;
    return cleaned + '@s.whatsapp.net';
>> *)
Definition formatPhoneNumber (number : string) : string :=
  let cleaned := JsString.replace_non_digits number in
  let cleaned :=
    if JsString.startsWith cleaned "0" then JsString.substring cleaned 1
    else cleaned in
  let cleaned :=
    if negb (JsString.startsWith cleaned "55") then "55" +:+ cleaned
    else cleaned in
  cleaned +:+ "@s.whatsapp.net".

(** The normalization as the specification words it, on lists of
    characters: keep the digits, drop one leading zero, prepend the
    country code unless it is already there, append the suffix. *)
Module NormalizeSpec.

Definition strip_non_digits (l : list ascii) : list ascii :=
  filter (fun c => Is_true (JsString.is_digit c)) l.

Definition drop_leading_zero (l : list ascii) : list ascii :=
  match l with
  | "0"%char :: rest => rest
  | _ => l
  end.

Definition has_country_code (l : list ascii) : bool :=
  match l with
  | "5"%char :: "5"%char :: _ => true
  | _ => false
  end.

Definition with_country_code (l : list ascii) : list ascii :=
  if has_country_code l then l
  else list_ascii_of_string COUNTRY_CODE ++ l.

Definition normalize (x : string) : string :=
  string_of_list_ascii
    (with_country_code
       (drop_leading_zero (strip_non_digits (list_ascii_of_string x)))
     ++ list_ascii_of_string WHATSAPP_SUFFIX).

End NormalizeSpec.

(* ===================================================================== *)
(** * [Math.random] draws and [randomDelay] *)
(* ===================================================================== *)

(** A draw of [Math.random()] is a double in [[0, 1)].  A non-negative
    double is [mantissa * 2^(-exponent)] with a mantissa of at most 53
    bits; the draw is kept in that exact form. *)
Record Draw := { mantissa : Z; exponent : Z }.

(** The draw is a Number that is at least 0 and below 1. *)
Definition in_unit_interval (d : Draw) : bool :=
  (0 <=? mantissa d) && (mantissa d <? 2 ^ 53)
  && (0 <=? exponent d) && (mantissa d <? 2 ^ exponent d).

(** Rounding of a non-negative integer significand to the 53 bits a
    double holds, to nearest, ties to even (IEEE 754 binary64). *)
Definition round_significand (n : Z) : Z :=
  let shift := Z.log2 n - 52 in
  if shift <=? 0 then n
  else
    let q := n / 2 ^ shift in
    let r := n mod 2 ^ shift in
    let half := 2 ^ (shift - 1) in
    let q' := if r <? half then q
              else if half <? r then q + 1
              else if Z.even q then q else q + 1 in
    q' * 2 ^ shift.

(** [Math.floor(Math.random() * c)] for an integer [c >= 0]: the exact
    product [mantissa * c / 2^exponent] is first rounded to a double,
    then floored.  (When the product is so small that the double would
    be subnormal the rounding is coarser, but both values are below 1
    and floor to 0.) *)
Definition floor_of_scaled_draw (d : Draw) (c : Z) : Z :=
  round_significand (mantissa d * c) / 2 ^ exponent d.

(** The number of milliseconds [randomDelay(min, max)] hands to
    [setTimeout]:
<<
    Math.floor(Math.random() * (max - min + 1)) + min
>>
    [min], [max] and the floor are small integers, on which double
    arithmetic is exact. *)
Definition randomDelay_ms (min max : Z) (d : Draw) : Z :=
  floor_of_scaled_draw d (max - min + 1) + min.

(** The defaults of [randomDelay(min = 1000, max = 3000)]. *)
Definition DEFAULT_MIN_DELAY : Z := 1000.
Definition DEFAULT_MAX_DELAY : Z := 3000.

(* ===================================================================== *)
(** * JavaScript values *)
(* ===================================================================== *)

(** The values that reach the service through JSON bodies, headers and
    library events.  [VNum] is an integer-valued Number; [VOpaque] is any
    other truthy value (an object, an array, a non-integer number),
    carried with the text that template interpolation gives it. *)
Inductive JsVal :=
| VUndefined
| VNull
| VBool (b : bool)
| VNum (z : Z)
| VStr (s : string)
| VOpaque (rendering : string).

(** ToBoolean: what [!v] and [v || w] test. *)
Definition truthy (v : JsVal) : bool :=
  match v with
  | VUndefined | VNull => false
  | VBool b => b
  | VNum z => negb (z =? 0)
  | VStr s => negb (String.eqb s "")
  | VOpaque _ => true
  end.

(** Strict equality [v === w] ([VOpaque] values are never equal: two
    separately received objects are distinct). *)
Definition strict_eq (v w : JsVal) : bool :=
  match v, w with
  | VUndefined, VUndefined => true
  | VNull, VNull => true
  | VBool a, VBool b => Bool.eqb a b
  | VNum a, VNum b => a =? b
  | VStr a, VStr b => String.eqb a b
  | _, _ => false
  end.

(** String conversion inside a template literal. *)
Definition to_template_string (v : JsVal) : string :=
  match v with
  | VUndefined => "undefined"
  | VNull => "null"
  | VBool true => "true"
  | VBool false => "false"
  | VNum z => pretty z
  | VStr s => s
  | VOpaque r => r
  end.

(** [a || b]. *)
Definition js_or (a b : JsVal) : JsVal := if truthy a then a else b.

(** An [Error] object, as far as the service looks at it. *)
Record JsError := { message : string }.

(* ===================================================================== *)
(** * The process state and the effect monad *)
(* ===================================================================== *)

(** Session credential state: the pair [{ creds, keys }]. *)
Record AuthState := { creds : JsVal; keys : JsVal }.

(** The socket object returned by [makeWASocket]. *)
Record Sock := { sock_id : nat; authState : AuthState }.

(** What a [setTimeout] callback does when it fires. *)
Inductive Callback :=
| CallConnectToWhatsApp   (* [() => connectToWhatsApp()] *)
| ResolveDelay.           (* the [resolve] of [randomDelay]'s promise *)

Record Timer := { callback : Callback; delay : Z }.

Inductive LogEntry :=
| LoggerInfo (msg : string) (args : list JsVal)
| LoggerError (msg : string) (args : list JsVal)
| ConsoleLog (msg : string)
| QrGenerate (qr : JsVal).

(** One invocation of the transport's [sock.sendMessage(jid, { text })]. *)
Record SentMessage := { via : nat; jid : string; text : string }.

(** The module-level variables [sock] and [isConnected], together with
    the records of what the process did to its collaborators: timers
    registered with [setTimeout], log output, calls of the transport's
    send primitive, and the rows of the [whatsapp_auth] table. *)
Record World := {
  sock : option Sock;
  isConnected : bool;
  timers : list Timer;
  logs : list LogEntry;
  outbox : list SentMessage;
  whatsapp_auth : gmap string (option AuthState)
}.

(** The state of a freshly started process: [let sock = null;
    let isConnected = false;]. *)
Definition initial_world (table : gmap string (option AuthState)) : World :=
  {| sock := None; isConnected := false; timers := []; logs := [];
     outbox := []; whatsapp_auth := table |}.

(** How a call ends: it returns, or it throws (an async function
    rejects). *)
Inductive Outcome (A : Type) :=
| Returned (a : A)
| Threw (e : JsError).
Arguments Returned {A} a.
Arguments Threw {A} e.

(** Computations over the process state.  State changes made before a
    throw persist, as in JavaScript. *)
Definition M (A : Type) : Type := World -> Outcome A * World.

#[global] Instance M_ret : MRet M := fun A a w => (Returned a, w).

#[global] Instance M_bind : MBind M := fun A B f m w =>
  match m w with
  | (Returned a, w') => f a w'
  | (Threw e, w') => (Threw e, w')
  end.

Definition throw {A} (e : JsError) : M A := fun w => (Threw e, w).

(** [try { body } catch (error) { handler }]. *)
Definition try_catch {A} (body : M A) (handler : JsError -> M A) : M A :=
  fun w =>
    match body w with
    | (Returned a, w') => (Returned a, w')
    | (Threw e, w') => handler e w'
    end.

Definition get_world : M World := fun w => (Returned w, w).

Definition logger (entry : LogEntry) : M unit := fun w =>
  (Returned tt,
   {| sock := sock w; isConnected := isConnected w; timers := timers w;
      logs := logs w ++ [entry]; outbox := outbox w;
      whatsapp_auth := whatsapp_auth w |}).

Definition setTimeout (cb : Callback) (ms : Z) : M unit := fun w =>
  (Returned tt,
   {| sock := sock w; isConnected := isConnected w;
      timers := timers w ++ [{| callback := cb; delay := ms |}];
      logs := logs w; outbox := outbox w;
      whatsapp_auth := whatsapp_auth w |}).

Definition set_isConnected (b : bool) : M unit := fun w =>
  (Returned tt,
   {| sock := sock w; isConnected := b; timers := timers w;
      logs := logs w; outbox := outbox w;
      whatsapp_auth := whatsapp_auth w |}).

Definition set_sock (s : Sock) : M unit := fun w =>
  (Returned tt,
   {| sock := Some s; isConnected := isConnected w; timers := timers w;
      logs := logs w; outbox := outbox w;
      whatsapp_auth := whatsapp_auth w |}).

Definition set_table (t : gmap string (option AuthState)) : M unit := fun w =>
  (Returned tt,
   {| sock := sock w; isConnected := isConnected w; timers := timers w;
      logs := logs w; outbox := outbox w; whatsapp_auth := t |}).

Definition record_send (m : SentMessage) : M unit := fun w =>
  (Returned tt,
   {| sock := sock w; isConnected := isConnected w; timers := timers w;
      logs := logs w; outbox := outbox w ++ [m];
      whatsapp_auth := whatsapp_auth w |}).

(* ===================================================================== *)
(** * The Supabase client, as the adapter uses it *)
(* ===================================================================== *)

(** The fixed session identifier. *)
Definition SESSION_ID : string := "main".

(** The [error] member of a PostgREST reply. *)
Record PostgrestError := { code : string; pg_message : string }.

(** What the store does with one request: it serves it, it answers
    with an [error] (permission, constraint, ...), or the call itself
    rejects (connectivity). *)
Inductive StoreFault :=
| NoFault
| ErrorReply (e : PostgrestError)
| Rejects (e : JsError).

(** The reply [{ data, error }] of a [select ... single()]: [data] is
    the row's [auth_state] column, [None] inside standing for a stored
    JSON value that is falsy. *)
Record SelectReply := {
  data : option (option AuthState);
  error : option PostgrestError
}.

(** PostgREST answers [single()] on an empty result with code
    [PGRST116]. *)
Definition NO_ROWS : PostgrestError :=
  {| code := "PGRST116";
     pg_message := "JSON object requested, multiple (or no) rows returned" |}.

(** [supabase.from('whatsapp_auth').select('auth_state')
      .eq('session_id', SESSION_ID).single()] *)
Definition supabase_select_single (fault : StoreFault) : M SelectReply :=
  match fault with
  | Rejects e => throw e
  | ErrorReply e => mret {| data := None; error := Some e |}
  | NoFault =>
      w ← get_world;
      match whatsapp_auth w !! SESSION_ID with
      | Some row => mret {| data := Some row; error := None |}
      | None => mret {| data := None; error := Some NO_ROWS |}
      end
  end.

(** [supabase.from('whatsapp_auth').upsert({ session_id, auth_state },
      { onConflict: 'session_id' })]; the result is the reply's [error]. *)
Definition supabase_upsert (fault : StoreFault) (state : AuthState)
  : M (option PostgrestError) :=
  match fault with
  | Rejects e => throw e
  | ErrorReply e => mret (Some e)
  | NoFault =>
      w ← get_world;
      set_table (<[SESSION_ID := Some state]> (whatsapp_auth w));;
      mret None
  end.

(* ===================================================================== *)
(** * Session store adapter: [useSupabaseAuthState] *)
(* ===================================================================== *)

(** The literal [{ creds: null, keys: null }]. *)
Definition EMPTY_STATE : AuthState := {| creds := VNull; keys := VNull |}.

(** The literal [{}]. *)
Definition EMPTY_OBJECT : JsVal := VOpaque "[object Object]".

(** Reading a property of [null]: the TypeError V8 raises. *)
Definition type_error_null (prop : string) : JsError :=
  {| message := "Cannot read properties of null (reading '" +:+ prop +:+ "')" |}.

Definition saveState (fault : StoreFault) (state : AuthState) : M unit :=
  try_catch
    (err ← supabase_upsert fault state;
     match err with
     | Some e => throw {| message := pg_message e |}
     | None => logger (LoggerInfo "✅ Auth state saved to Supabase" [])
     end)
    (fun error =>
       logger (LoggerError "❌ Error saving auth state:"
                 [VStr (message error)])).

Definition loadState (fault : StoreFault) : M AuthState :=
  try_catch
    (reply ← supabase_select_single fault;
     match error reply with
     | Some e =>
         if String.eqb (code e) "PGRST116" then
           logger (LoggerInfo
                     "📝 No existing auth state found, starting fresh" []);;
           mret EMPTY_STATE
         else throw {| message := pg_message e |}
     | None =>
         logger (LoggerInfo "✅ Auth state loaded from Supabase" []);;
         match data reply with
         | Some (Some auth_state) => mret auth_state
         | Some None => mret EMPTY_STATE
         | None => throw (type_error_null "auth_state")
         end
     end)
    (fun error =>
       logger (LoggerError "❌ Error loading auth state:"
                 [VStr (message error)]);;
       mret EMPTY_STATE).

(** The [state] member of what [useSupabaseAuthState] returns. *)
Definition useSupabaseAuthState (fault : StoreFault) : M AuthState :=
  state ← loadState fault;
  mret {| creds := js_or (creds state) EMPTY_OBJECT;
          keys := js_or (keys state) EMPTY_OBJECT |}.

(** The [saveCreds] member: it reads the module-level [sock]. *)
Definition saveCreds (fault : StoreFault) : M unit :=
  w ← get_world;
  match sock w with
  | None => throw (type_error_null "authState")
  | Some s =>
      saveState fault {| creds := creds (authState s);
                         keys := keys (authState s) |}
  end.

(* ===================================================================== *)
(** * Connection manager *)
(* ===================================================================== *)

(** The [lastDisconnect] member of a connection update; every level of
    [lastDisconnect?.error?.output?.statusCode] may be missing. *)
Record DisconnectOutput := { statusCode : JsVal }.
Record DisconnectError := {
  output : option DisconnectOutput;
  error_message : JsVal
}.
Record LastDisconnect := { disconnect_error : option DisconnectError }.

(** The argument of the [connection.update] event. *)
Record ConnectionUpdate := {
  connection : JsVal;
  lastDisconnect : option LastDisconnect;
  qr : JsVal
}.

(** [lastDisconnect?.error?.output?.statusCode] *)
Definition statusCode_of (ld : option LastDisconnect) : JsVal :=
  match ld with
  | Some {| disconnect_error := Some {| output := Some o |} |} => statusCode o
  | _ => VUndefined
  end.

(** [lastDisconnect?.error?.message] *)
Definition errorMessage_of (ld : option LastDisconnect) : JsVal :=
  match ld with
  | Some {| disconnect_error := Some e |} => error_message e
  | _ => VUndefined
  end.

(** What the transport library answers while [connectToWhatsApp] runs:
    whether [fetchLatestBaileysVersion] rejects, what the store does
    with the load, whether [makeWASocket] throws. *)
Record ConnectEnv := {
  version_failure : option JsError;
  load_fault : StoreFault;
  socket_failure : option JsError
}.

Definition may_fail (failure : option JsError) : M unit :=
  match failure with
  | Some e => throw e
  | None => mret tt
  end.

(** The identity of the next socket object. *)
Definition fresh_sock_id (w : World) : nat :=
  match sock w with
  | None => O
  | Some s => S (sock_id s)
  end.

Section Service.

(** [DisconnectReason.loggedOut], a status code of the Baileys library
    (401 in its releases). *)
Variable loggedOut : Z.

(** The shared secret, [process.env.X_API_KEY || 'your-secret-api-key']. *)
Variable API_KEY : string.

(** The [connection.update] handler registered by [connectToWhatsApp]. *)
Definition on_connection_update (update : ConnectionUpdate) : M unit :=
  logger (LoggerInfo "Connection update:"
            [connection update; VBool (truthy (qr update))]);;
  (if truthy (qr update) then
     logger (LoggerInfo "📱 QR Code generated - Scan with WhatsApp" []);;
     logger (LoggerInfo "QR Code:" []);;
     logger (ConsoleLog (String "010"%char ""));;
     logger (QrGenerate (qr update));;
     logger (ConsoleLog (String "010"%char ""));;
     logger (LoggerInfo "Scan the QR code above with WhatsApp" [])
   else mret tt);;
  if strict_eq (connection update) (VStr "close") then
    let statusCode := statusCode_of (lastDisconnect update) in
    let errorMessage := errorMessage_of (lastDisconnect update) in
    logger (LoggerError "Connection closed:"
              [statusCode; errorMessage;
               VBool (negb (strict_eq statusCode (VNum loggedOut)))]);;
    let shouldReconnect := negb (strict_eq statusCode (VNum loggedOut)) in
    if shouldReconnect then
      logger (LoggerInfo "Reconnecting in 5 seconds..." []);;
      setTimeout CallConnectToWhatsApp 5000
    else
      set_isConnected false;;
      logger (LoggerError
                "❌ Logged out. Please restart and scan QR code again." [])
  else if strict_eq (connection update) (VStr "open") then
    set_isConnected true;;
    logger (LoggerInfo "✅ WhatsApp connected successfully!" [])
  else if strict_eq (connection update) (VStr "connecting") then
    logger (LoggerInfo "🔄 Connecting to WhatsApp..." [])
  else mret tt.

(** [connectToWhatsApp()], up to the registration of the two event
    handlers ([on_connection_update] and [saveCreds]) on the new socket. *)
Definition connectToWhatsApp (env : ConnectEnv) : M unit :=
  try_catch
    (may_fail (version_failure env);;
     state ← useSupabaseAuthState (load_fault env);
     may_fail (socket_failure env);;
     w ← get_world;
     set_sock {| sock_id := fresh_sock_id w; authState := state |})
    (fun error =>
       logger (LoggerError "❌ Error connecting to WhatsApp:"
                 [VStr (message error)]);;
       setTimeout CallConnectToWhatsApp 10000).

(* ===================================================================== *)
(** * Deliver-text operation *)
(* ===================================================================== *)

(** [formatPhoneNumber(number)] on whatever value the caller passed:
    only a string has a [replace] method. *)
Definition formatPhoneNumber_of (number : JsVal) : M string :=
  match number with
  | VStr s => mret (formatPhoneNumber s)
  | VUndefined =>
      throw {| message :=
                 "Cannot read properties of undefined (reading 'replace')" |}
  | VNull => throw (type_error_null "replace")
  | _ => throw {| message := "number.replace is not a function" |}
  end.

(** What the outside world answers during one send: the [Math.random]
    draw of the delay, and whether the transport's [sendMessage]
    rejects. *)
Record SendEnv := { draw : Draw; transport_failure : option JsError }.

(** [!sock] for the module-level socket variable. *)
Definition is_null {A} (o : option A) : bool :=
  match o with
  | None => true
  | Some _ => false
  end.

Definition NOT_CONNECTED : JsError := {| message := "WhatsApp not connected" |}.

(** [sendWhatsAppMessage(number, message)].  The two awaits are taken in
    sequence; the delay is recorded as the timer [randomDelay] sets. *)
Definition sendWhatsAppMessage (number : JsVal) (msg : string) (env : SendEnv)
  : M unit :=
  w ← get_world;
  if negb (isConnected w) || is_null (sock w) then
    throw NOT_CONNECTED
  else
    formattedNumber ← formatPhoneNumber_of number;
    setTimeout ResolveDelay
      (randomDelay_ms DEFAULT_MIN_DELAY DEFAULT_MAX_DELAY (draw env));;
    w' ← get_world;
    match sock w' with
    | None => throw (type_error_null "sendMessage")
    | Some s =>
        record_send {| via := sock_id s; jid := formattedNumber; text := msg |};;
        may_fail (transport_failure env);;
        logger (LoggerInfo ("📤 Message sent to " +:+ to_template_string number) [])
    end.

(* ===================================================================== *)
(** * Express server *)
(* ===================================================================== *)

(** A request after [express.json()]: its headers and the parsed body
    object. *)
Record Request := {
  headers : gmap string string;
  body : gmap string JsVal
}.

(** [res.status(s).json(payload)]; [res.json(payload)] has status 200. *)
Record Response := { status : Z; json : list (string * JsVal) }.

(** Destructuring a member of [req.body]: a missing key is [undefined]. *)
Definition body_field (req : Request) (key : string) : JsVal :=
  default VUndefined (body req !! key).

Definition NL : string := String "010"%char "".

(** The API-key middleware: [Some] response when it answers itself,
    [None] when it calls [next()]. *)
Definition validateApiKey (req : Request) : option Response :=
  let apiKey := headers req !! "x-api-key" in
  match apiKey with
  | None => Some {| status := 401;
                    json := [("success", VBool false);
                             ("error", VStr "Unauthorized - Invalid API Key")] |}
  | Some k =>
      if String.eqb k "" || negb (String.eqb k API_KEY) then
        Some {| status := 401;
                json := [("success", VBool false);
                         ("error", VStr "Unauthorized - Invalid API Key")] |}
      else None
  end.

(** [GET /health]; the timestamp is the clock's ISO string. *)
Definition health (timestamp : string) : M Response :=
  w ← get_world;
  mret {| status := 200;
          json := [("success", VBool true);
                   ("connected", VBool (isConnected w));
                   ("timestamp", VStr timestamp)] |}.

Definition MISSING_OTP_FIELDS : Response :=
  {| status := 400;
     json := [("success", VBool false);
              ("error", VStr "Missing required fields: number, code")] |}.

Definition otp_message (code : JsVal) : string :=
  "🔐 *RachaAI*" +:+ NL +:+ NL +:+ "Seu código de ativação é: *"
  +:+ to_template_string code +:+ "*" +:+ NL +:+ NL
  +:+ "Utilize-o para validar sua conta agora.".

(** The handler of [POST /v1/send-otp]. *)
Definition send_otp_handler (req : Request) (env : SendEnv) : M Response :=
  try_catch
    (let number := body_field req "number" in
     let code := body_field req "code" in
     if negb (truthy number) || negb (truthy code) then
       mret MISSING_OTP_FIELDS
     else
       let msg := otp_message code in
       sendWhatsAppMessage number msg env;;
       formatted ← formatPhoneNumber_of number;
       mret {| status := 200;
               json := [("success", VBool true);
                        ("message", VStr "OTP sent successfully");
                        ("number", VStr formatted)] |})
    (fun error =>
       logger (LoggerError "❌ Error sending OTP:" [VStr (message error)]);;
       mret {| status := 500;
               json := [("success", VBool false);
                        ("error", VStr (message error))] |}).

Definition MISSING_BILLING_FIELDS : Response :=
  {| status := 400;
     json := [("success", VBool false);
              ("error",
               VStr "Missing required fields: number, type, service, value, pixKey")] |}.

Definition INVALID_TYPE : Response :=
  {| status := 400;
     json := [("success", VBool false);
              ("error", VStr "Invalid type. Use: D-1, D0, or D+1")] |}.

(** The three templates of the [switch (type)]. *)
Definition billing_message_D_minus_1 (service value pixKey : JsVal) : string :=
  "👋 Olá!" +:+ NL +:+ NL +:+ "Sua parte da assinatura *"
  +:+ to_template_string service +:+ "* vence amanhã." +:+ NL +:+ NL
  +:+ "💰 Valor: R$ " +:+ to_template_string value +:+ NL
  +:+ "🔑 Chave Pix: `" +:+ to_template_string pixKey +:+ "`" +:+ NL +:+ NL
  +:+ "Pague agora e evite transtornos!".

Definition billing_message_D0 (service value pixKey : JsVal) : string :=
  "⚠️ *Atenção!*" +:+ NL +:+ NL +:+ "Sua fatura do *"
  +:+ to_template_string service +:+ "* vence *HOJE*." +:+ NL +:+ NL
  +:+ "Evite a interrupção do serviço!" +:+ NL +:+ NL
  +:+ "💰 Valor: R$ " +:+ to_template_string value +:+ NL
  +:+ "🔑 Chave Pix: `" +:+ to_template_string pixKey +:+ "`".

Definition billing_message_D_plus_1 (service value pixKey : JsVal) : string :=
  "🚨 *PAGAMENTO ATRASADO*" +:+ NL +:+ NL +:+ "Sua assinatura do *"
  +:+ to_template_string service +:+ "* venceu ontem." +:+ NL +:+ NL
  +:+ "O dono do grupo já foi notificado." +:+ NL +:+ NL
  +:+ "💰 Valor: R$ " +:+ to_template_string value +:+ NL
  +:+ "🔑 Chave Pix: `" +:+ to_template_string pixKey +:+ "`" +:+ NL +:+ NL
  +:+ "Regularize agora para manter o acesso!".

(** The [switch (type)]: the message, or [None] for the [default] arm. *)
Definition billing_message (type service value pixKey : JsVal) : option string :=
  if strict_eq type (VStr "D-1") then
    Some (billing_message_D_minus_1 service value pixKey)
  else if strict_eq type (VStr "D0") then
    Some (billing_message_D0 service value pixKey)
  else if strict_eq type (VStr "D+1") then
    Some (billing_message_D_plus_1 service value pixKey)
  else None.

(** The handler of [POST /v1/notify-billing]. *)
Definition notify_billing_handler (req : Request) (env : SendEnv) : M Response :=
  try_catch
    (let number := body_field req "number" in
     let type := body_field req "type" in
     let service := body_field req "service" in
     let value := body_field req "value" in
     let pixKey := body_field req "pixKey" in
     if negb (truthy number) || negb (truthy type) || negb (truthy service)
        || negb (truthy value) || negb (truthy pixKey) then
       mret MISSING_BILLING_FIELDS
     else
       match billing_message type service value pixKey with
       | None => mret INVALID_TYPE
       | Some msg =>
           sendWhatsAppMessage number msg env;;
           formatted ← formatPhoneNumber_of number;
           mret {| status := 200;
                   json := [("success", VBool true);
                            ("message",
                             VStr "Billing notification sent successfully");
                            ("type", type);
                            ("number", VStr formatted)] |}
       end)
    (fun error =>
       logger (LoggerError "❌ Error sending billing notification:"
                 [VStr (message error)]);;
       mret {| status := 500;
               json := [("success", VBool false);
                        ("error", VStr (message error))] |}).

(** A route [app.post(path, validateApiKey, handler)]. *)
Definition route (handler : Request -> SendEnv -> M Response)
  (req : Request) (env : SendEnv) : M Response :=
  match validateApiKey req with
  | Some rejection => mret rejection
  | None => handler req env
  end.

Definition post_send_otp : Request -> SendEnv -> M Response :=
  route send_otp_handler.

Definition post_notify_billing : Request -> SendEnv -> M Response :=
  route notify_billing_handler.

End Service.

(* ===================================================================== *)
(** * Vocabulary of the properties *)
(* ===================================================================== *)

(** The fields each endpoint's validation tests, in the order of its
    condition. *)
Definition OTP_REQUIRED : list string := ["number"; "code"].
Definition BILLING_REQUIRED : list string :=
  ["number"; "type"; "service"; "value"; "pixKey"].

(** JSON values that are present in a body and falsy. *)
Definition FALSY_JSON : list JsVal := [VStr ""; VNum 0; VBool false; VNull].

(** The one timer of the reconnect policy. *)
Definition RECONNECT_TIMER : Timer :=
  {| callback := CallConnectToWhatsApp; delay := 5000 |}.

(** The world with one more log entry, and nothing else changed. *)
Definition logged (entry : LogEntry) (w : World) : World :=
  snd (logger entry w).

(** Concrete states, events and requests, for the worked instances of
    the properties. *)
Module Sample.

(** The value of [DisconnectReason.loggedOut] in Baileys, and its
    [DisconnectReason.timedOut]. *)
Definition LOGGED_OUT : Z := 401.
Definition TIMED_OUT : Z := 408.

Definition KEY : string := "minha-chave-secreta-super-segura".

Definition live_sock : Sock :=
  {| sock_id := 0;
     authState := {| creds := EMPTY_OBJECT; keys := EMPTY_OBJECT |} |}.

(** A process whose session is open. *)
Definition connected : World :=
  {| sock := Some live_sock; isConnected := true; timers := []; logs := [];
     outbox := []; whatsapp_auth := ∅ |}.

(** A process whose session has not opened yet. *)
Definition connecting : World :=
  {| sock := Some live_sock; isConnected := false; timers := []; logs := [];
     outbox := []; whatsapp_auth := ∅ |}.

Definition close_with (status : JsVal) : ConnectionUpdate :=
  {| connection := VStr "close";
     lastDisconnect :=
       Some {| disconnect_error :=
                 Some {| output := Some {| statusCode := status |};
                         error_message := VStr "Connection Failure" |} |};
     qr := VUndefined |}.

(** A close event with no [lastDisconnect] at all. *)
Definition bare_close : ConnectionUpdate :=
  {| connection := VStr "close"; lastDisconnect := None; qr := VUndefined |}.

(** The draws 1/2 and 4095/4096. *)
Definition half : Draw := {| mantissa := 1; exponent := 1 |}.
Definition near_one : Draw := {| mantissa := 4095; exponent := 12 |}.

Definition calm : SendEnv := {| draw := half; transport_failure := None |}.

Definition unreachable : StoreFault :=
  Rejects {| message := "fetch failed" |}.

(** The billing fixture of the README, sent as an overdue notice. *)
Definition billing_request : Request :=
  {| headers := {[ "x-api-key" := KEY ]};
     body := list_to_map
               [("number", VStr "11999999999");
                ("type", VStr "D+1");
                ("service", VStr "Netflix Premium");
                ("value", VStr "14.90");
                ("pixKey", VStr "email@exemplo.com")] |}.

(** An OTP request whose [code] is the number 0. *)
Definition otp_zero_code : Request :=
  {| headers := {[ "x-api-key" := KEY ]};
     body := list_to_map [("number", VStr "11999999999"); ("code", VNum 0)] |}.

(** A billing request whose [value] is the empty string. *)
Definition billing_empty_value : Request :=
  {| headers := {[ "x-api-key" := KEY ]};
     body := list_to_map
               [("number", VStr "11999999999");
                ("type", VStr "D0");
                ("service", VStr "Netflix Premium");
                ("value", VStr "");
                ("pixKey", VStr "email@exemplo.com")] |}.

End Sample.

(* ===================================================================== *)
(** * Configuration *)
(* ===================================================================== *)

(** [process.env.NAME || fallback], for a string fallback: an unset and
    an empty variable both give the fallback. *)
Definition env_or (value : option string) (fallback : string) : string :=
  match value with
  | Some s => if String.eqb s "" then fallback else s
  | None => fallback
  end.

(** [!process.env.NAME] *)
Definition env_missing (value : option string) : bool :=
  match value with
  | Some s => String.eqb s ""
  | None => true
  end.

(** The module-level constants read from the environment. *)
Record Config := {
  port : JsVal;
  api_key : string;
  supabase_url : string;
  supabase_key : string
}.

(** How the top of the module ends: [process.exit(1)] after the
    console error, or the constants. *)
Inductive Startup :=
| ProcessExit (exit_code : Z) (stderr : string)
| Configured (cfg : Config).

(** The CONFIGURATION block:
<<
    const PORT = process.env.PORT || 3000;
    const API_KEY = process.env.X_API_KEY || 'your-secret-api-key';
    const SUPABASE_URL = process.env.SUPABASE_URL;
    const SUPABASE_KEY = process.env.SUPABASE_SERVICE_KEY;
    if (!SUPABASE_URL || !SUPABASE_KEY) { console.error(...); process.exit(1); }
>> *)
Definition configure (env : gmap string string) : Startup :=
  let PORT := match env !! "PORT" with
              | Some s => if String.eqb s "" then VNum 3000 else VStr s
              | None => VNum 3000
              end in
  let API_KEY := env_or (env !! "X_API_KEY") "your-secret-api-key" in
  let SUPABASE_URL := env !! "SUPABASE_URL" in
  let SUPABASE_KEY := env !! "SUPABASE_SERVICE_KEY" in
  if env_missing SUPABASE_URL || env_missing SUPABASE_KEY then
    ProcessExit 1
      "❌ Missing required environment variables: SUPABASE_URL or SUPABASE_SERVICE_KEY"
  else
    Configured {| port := PORT; api_key := API_KEY;
                  supabase_url := default "" SUPABASE_URL;
                  supabase_key := default "" SUPABASE_KEY |}.

(* ===================================================================== *)
(** * The handlers, cut at the delay *)
(* ===================================================================== *)

(** [sendWhatsAppMessage] is suspended at [await randomDelay()] for one to
    three seconds, and other events run in between.  The operation
    is cut there: [send_begin] is the code before the await, [send_resume]
    the code after it. *)
Definition send_begin (number : JsVal) (d : Draw) : M string :=
  w ← get_world;
  if negb (isConnected w) || is_null (sock w) then
    throw NOT_CONNECTED
  else
    formattedNumber ← formatPhoneNumber_of number;
    setTimeout ResolveDelay
      (randomDelay_ms DEFAULT_MIN_DELAY DEFAULT_MAX_DELAY d);;
    mret formattedNumber.

Definition send_resume (formattedNumber : string) (number : JsVal)
  (msg : string) (failure : option JsError) : M unit :=
  w' ← get_world;
  match sock w' with
  | None => throw (type_error_null "sendMessage")
  | Some s =>
      record_send {| via := sock_id s; jid := formattedNumber; text := msg |};;
      may_fail failure;;
      logger (LoggerInfo ("📤 Message sent to " +:+ to_template_string number) [])
  end.

Inductive Endpoint := SendOtp | NotifyBilling.

(** A request handler waiting for its delay: what the rest of the
    handler still reads. *)
Record Suspended := {
  endpoint : Endpoint;
  to : JsVal;
  address : string;
  body_text : string;
  type_echo : JsVal
}.

(** The part of a handler before it calls [sendWhatsAppMessage]: the
    response it gives at once, or the number, the message and the
    [type] to send with. *)
Definition prepare (ep : Endpoint) (req : Request)
  : Response + (JsVal * string * JsVal) :=
  match ep with
  | SendOtp =>
      let number := body_field req "number" in
      let code := body_field req "code" in
      if negb (truthy number) || negb (truthy code) then
        inl MISSING_OTP_FIELDS
      else inr (number, otp_message code, VUndefined)
  | NotifyBilling =>
      let number := body_field req "number" in
      let type := body_field req "type" in
      let service := body_field req "service" in
      let value := body_field req "value" in
      let pixKey := body_field req "pixKey" in
      if negb (truthy number) || negb (truthy type) || negb (truthy service)
         || negb (truthy value) || negb (truthy pixKey) then
        inl MISSING_BILLING_FIELDS
      else
        match billing_message type service value pixKey with
        | None => inl INVALID_TYPE
        | Some msg => inr (number, msg, type)
        end
  end.

(** The [catch] block of a handler: its log entry and its response. *)
Definition error_log (ep : Endpoint) (error : JsError) : LogEntry :=
  LoggerError
    match ep with
    | SendOtp => "❌ Error sending OTP:"
    | NotifyBilling => "❌ Error sending billing notification:"
    end
    [VStr (message error)].

Definition error_response (error : JsError) : Response :=
  {| status := 500;
     json := [("success", VBool false); ("error", VStr (message error))] |}.

Definition on_handler_error (ep : Endpoint) (error : JsError) : M Response :=
  logger (error_log ep error);;
  mret (error_response error).

(** The two handlers of the server, by endpoint. *)
Definition handler_of (ep : Endpoint) : Request -> SendEnv -> M Response :=
  match ep with
  | SendOtp => send_otp_handler
  | NotifyBilling => notify_billing_handler
  end.

(** The message [sock.sendMessage] is called with for a waiting
    handler, on socket [s]. *)
Definition message_of (s : Sock) (h : Suspended) : SentMessage :=
  {| via := sock_id s; jid := address h; text := body_text h |}.

(** The [res.json] of the success path. *)
Definition success_response (ep : Endpoint) (type : JsVal) (formatted : string)
  : Response :=
  match ep with
  | SendOtp =>
      {| status := 200;
         json := [("success", VBool true);
                  ("message", VStr "OTP sent successfully");
                  ("number", VStr formatted)] |}
  | NotifyBilling =>
      {| status := 200;
         json := [("success", VBool true);
                  ("message", VStr "Billing notification sent successfully");
                  ("type", type);
                  ("number", VStr formatted)] |}
  end.

(** A handler up to the delay: it answers, or it is suspended. *)
Definition handler_begin (ep : Endpoint) (req : Request) (d : Draw)
  : M (Response + Suspended) :=
  match prepare ep req with
  | inl response => mret (inl response)
  | inr (number, msg, type) =>
      try_catch
        (formattedNumber ← send_begin number d;
         mret (inr {| endpoint := ep; to := number;
                      address := formattedNumber; body_text := msg;
                      type_echo := type |}))
        (fun error => response ← on_handler_error ep error;
                      mret (inl response))
  end.

(** A handler from the delay on; the await of [sendMessage] is taken in
    one step with the log line and the response that follow it. *)
Definition handler_resume (s : Suspended) (failure : option JsError)
  : M Response :=
  try_catch
    (send_resume (address s) (to s) (body_text s) failure;;
     formatted ← formatPhoneNumber_of (to s);
     mret (success_response (endpoint s) (type_echo s) formatted))
    (on_handler_error (endpoint s)).

(** A handler whose delay nothing interrupts. *)
Definition handler_uninterrupted (ep : Endpoint) (req : Request) (env : SendEnv)
  : M Response :=
  outcome ← handler_begin ep req (draw env);
  match outcome with
  | inl response => mret response
  | inr s => handler_resume s (transport_failure env)
  end.

(* ===================================================================== *)
(** * The process as a sequence of events *)
(* ===================================================================== *)

(** The process state between two events: the module-level state and
    the handlers that wait for their delay, oldest first. *)
Record Process := { world : World; suspended : list Suspended }.

(** What the event loop delivers: the [app.listen] callback, the callback
    of a reconnect timer, the two events of the socket, a request to
    one of the three routes (a POST with the [Math.random] draw of its
    delay), and the end of the delay of a waiting handler (with what the
    transport then answers). *)
Inductive Event :=
| Listening (env : ConnectEnv)
| ReconnectTimer (env : ConnectEnv)
| SocketConnectionUpdate (update : ConnectionUpdate)
| SocketCredsUpdate (fault : StoreFault)
| GetHealth (timestamp : string)
| Post (ep : Endpoint) (req : Request) (d : Draw)
| DelayElapsed (index : nat) (failure : option JsError).

Definition is_reconnect_timer (t : Timer) : bool :=
  match callback t with
  | CallConnectToWhatsApp => true
  | ResolveDelay => false
  end.

Definition is_delay_timer (t : Timer) : bool :=
  match callback t with
  | CallConnectToWhatsApp => false
  | ResolveDelay => true
  end.

Section EventLoop.

Variable loggedOut : Z.
Variable API_KEY : string.
Variable PORT : JsVal.

(** The callback of [app.listen(PORT, ...)]. *)
Definition on_listening (env : ConnectEnv) : M unit :=
  logger (LoggerInfo ("🚀 WhatsApp Microservice running on port "
                      +:+ to_template_string PORT) []);;
  logger (LoggerInfo "🔐 API Key protection enabled" []);;
  logger (LoggerInfo "📱 Connecting to WhatsApp..." []);;
  connectToWhatsApp env.

(** The process after a computation on the module-level state. *)
Definition after {A} (m : M A) (p : Process) : Process :=
  {| world := snd (m (world p)); suspended := suspended p |}.

(** One event.  A socket event needs a socket (the handlers are
    registered on the socket [connectToWhatsApp] creates), a reconnect
    needs a registered reconnect timer, the end of a delay needs the
    waiting handler; otherwise nothing happens.  The record of timers
    does not tell which of them have fired, and a replaced socket keeps
    its handlers, so that a reconnect is admitted whenever a reconnect
    timer was ever set and a socket event whenever a socket exists:
    these are more runs than the process has, never fewer.
    [connectToWhatsApp] and [saveCreds] are taken as one step each
    (before its last step [connectToWhatsApp] only reads the store and
    writes log lines). *)
Definition step (p : Process) (e : Event) : Process :=
  match e with
  | Listening env => after (on_listening env) p
  | ReconnectTimer env =>
      if existsb is_reconnect_timer (timers (world p))
      then after (connectToWhatsApp env) p
      else p
  | SocketConnectionUpdate update =>
      if is_null (sock (world p)) then p
      else after (on_connection_update loggedOut update) p
  | SocketCredsUpdate fault =>
      if is_null (sock (world p)) then p
      else after (saveCreds fault) p
  | GetHealth timestamp => after (health timestamp) p
  | Post ep req d =>
      match validateApiKey API_KEY req with
      | Some _ => p
      | None =>
          match handler_begin ep req d (world p) with
          | (Returned (inr s), w) =>
              {| world := w; suspended := suspended p ++ [s] |}
          | (_, w) => {| world := w; suspended := suspended p |}
          end
      end
  | DelayElapsed index failure =>
      match suspended p !! index with
      | None => p
      | Some s =>
          {| world := snd (handler_resume s failure (world p));
             suspended := delete index (suspended p) |}
      end
  end.

Definition run (events : list Event) (p : Process) : Process :=
  fold_left step events p.

End EventLoop.

(** The process right after the module is loaded. *)
Definition boot (table : gmap string (option AuthState)) : Process :=
  {| world := initial_world table; suspended := [] |}.

(** An address of the form the transport expects. *)
Definition normalized_address (a : string) : bool :=
  JsString.startsWith a "55" && JsString.endsWith a "@s.whatsapp.net".

(** A timer one of the three [setTimeout] calls of the service can set,
    with a draw in [[0, 1)]. *)
Definition timer_in_range (t : Timer) : bool :=
  match callback t with
  | CallConnectToWhatsApp => (delay t =? 5000) || (delay t =? 10000)
  | ResolveDelay => (1000 <=? delay t) && (delay t <=? 3000)
  end.

Definition draw_in_range (e : Event) : bool :=
  match e with
  | Post _ _ d => in_unit_interval d
  | _ => true
  end.

Definition is_open_event (e : Event) : bool :=
  match e with
  | SocketConnectionUpdate update => strict_eq (connection update) (VStr "open")
  | _ => false
  end.

(** The 401 answer of the middleware. *)
Definition UNAUTHORIZED : Response :=
  {| status := 401;
     json := [("success", VBool false);
              ("error", VStr "Unauthorized - Invalid API Key")] |}.

(** Two states of the module that differ in the log output at most. *)
Definition only_logs_differ (w w' : World) : Prop :=
  sock w' = sock w
  /\ isConnected w' = isConnected w
  /\ timers w' = timers w
  /\ outbox w' = outbox w
  /\ whatsapp_auth w' = whatsapp_auth w.

(** The reconnect timer of the [catch] block of [connectToWhatsApp]. *)
Definition RETRY_TIMER : Timer :=
  {| callback := CallConnectToWhatsApp; delay := 10000 |}.

(** The timer [randomDelay()] sets for a draw. *)
Definition delay_timer (d : Draw) : Timer :=
  {| callback := ResolveDelay;
     delay := randomDelay_ms DEFAULT_MIN_DELAY DEFAULT_MAX_DELAY d |}.

(** What holds of the process after every event, for the table it was
    started with: a set flag or a waiting handler comes with a socket;
    every address handed or about to be handed to the transport is
    normalized; every delay timer belongs to one send, made or waiting;
    no row but the session's own has changed. *)
Definition process_invariant (table : gmap string (option AuthState))
  (p : Process) : Prop :=
  (isConnected (world p) = true \/ suspended p <> [] -> sock (world p) <> None)
  /\ Forall (fun m => normalized_address (jid m) = true) (outbox (world p))
  /\ Forall (fun s => normalized_address (address s) = true) (suspended p)
  /\ (length (outbox (world p)) + length (suspended p)
      = length (List.filter is_delay_timer (timers (world p))))%nat
  /\ (forall key, key <> SESSION_ID ->
        whatsapp_auth (world p) !! key = table !! key).

(** Concrete runs of the process. *)
Module Scenario.

(** The transport library answers, the store holds no row. *)
Definition smooth : ConnectEnv :=
  {| version_failure := None; load_fault := NoFault; socket_failure := None |}.

(** [fetchLatestBaileysVersion] rejects. *)
Definition offline : ConnectEnv :=
  {| version_failure := Some {| message := "getaddrinfo ENOTFOUND" |};
     load_fault := NoFault; socket_failure := None |}.

Definition opened : ConnectionUpdate :=
  {| connection := VStr "open"; lastDisconnect := None; qr := VUndefined |}.

Definition pairing : ConnectionUpdate :=
  {| connection := VUndefined; lastDisconnect := None; qr := VStr "2@abc" |}.

Definition otp_request : Request :=
  {| headers := {[ "x-api-key" := Sample.KEY ]};
     body := list_to_map [("number", VStr "(11) 99999-9999");
                          ("code", VStr "123456")] |}.

(** The number sent as a JSON number. *)
Definition otp_numeric_number : Request :=
  {| headers := {[ "x-api-key" := Sample.KEY ]};
     body := list_to_map [("number", VNum 11999999999);
                          ("code", VStr "123456")] |}.

Definition otp_wrong_key : Request :=
  {| headers := {[ "x-api-key" := "guess" ]};
     body := list_to_map [("number", VStr "11999999999");
                          ("code", VStr "123456")] |}.


Definition transport_down : SendEnv :=
  {| draw := Sample.half;
     transport_failure := Some {| message := "Connection Closed" |} |}.

Definition paired_state : AuthState :=
  {| creds := VOpaque "[object Object]"; keys := VOpaque "[object Object]" |}.



(** Start, open, accept an OTP request, be logged out during its delay,
    then let the delay end. *)
Definition logout_during_delay : list Event :=
  [Listening smooth;
   SocketConnectionUpdate opened;
   Post SendOtp otp_request Sample.half;
   SocketConnectionUpdate (Sample.close_with (VNum Sample.LOGGED_OUT))].

(** Start without network, retry, pair, and serve requests before the
    session opens. *)
Definition requests_before_open : list Event :=
  [Listening offline;
   ReconnectTimer smooth;
   SocketConnectionUpdate pairing;
   Post SendOtp otp_request Sample.half;
   Post NotifyBilling Sample.billing_request Sample.near_one;
   GetHealth "2026-01-20T14:00:00.000Z"].

Definition environment : gmap string string :=
  {[ "SUPABASE_URL" := "https://seu-projeto.supabase.co";
     "SUPABASE_SERVICE_KEY" := "sua-service-role-key" ]}.

(** What [configure] makes of that environment. *)
Definition configuration : Config :=
  {| port := VNum 3000; api_key := "your-secret-api-key";
     supabase_url := "https://seu-projeto.supabase.co";
     supabase_key := "sua-service-role-key" |}.

Definition default_key_request : Request :=
  {| headers := {[ "x-api-key" := "your-secret-api-key" ]};
     body := list_to_map [("number", VStr "11999999999");
                          ("code", VStr "123456")] |}.

(** The handler of [otp_request], waiting for its delay. *)
Definition waiting_otp : Suspended :=
  {| endpoint := SendOtp; to := VStr "(11) 99999-9999";
     address := "5511999999999@s.whatsapp.net";
     body_text := otp_message (VStr "123456"); type_echo := VUndefined |}.

(** A table that holds the row of another session. *)
Definition shared_table : gmap string (option AuthState) :=
  {[ "backup" := Some paired_state ]}.

Definition pair_and_save : list Event :=
  [Listening smooth;
   SocketConnectionUpdate opened;
   SocketCredsUpdate NoFault;
   SocketCredsUpdate (ErrorReply {| code := "42501";
                                    pg_message := "permission denied" |})].

End Scenario.

(* ===================================================================== *)
(** * The reminder job of the integration example *)
(* ===================================================================== *)

(** The choice of [notificationType] in
    [processAutomatedBillingReminders], for a whole number of days
    [diffDays]; [None] is [null]:
<<
    if (diffDays === 1) notificationType = 'D-1';
    else if (diffDays === 0) notificationType = 'D0';
    else if (diffDays === -1) notificationType = 'D+1';
>> *)
Definition notificationType_of (diffDays : Z) : option string :=
  if diffDays =? 1 then Some "D-1"
  else if diffDays =? 0 then Some "D0"
  else if diffDays =? -1 then Some "D+1"
  else None.

(** [leader?.profiles?.pix_key || 'Não informado'] *)
Definition leaderPixKey_of (pix_key : JsVal) : JsVal :=
  js_or pix_key (VStr "Não informado").

(** The body [sendBillingNotification] posts, after [JSON.stringify] and
    the server's [express.json()]: a member whose value is [undefined]
    is left out. *)
Definition json_object (members : list (string * JsVal)) : gmap string JsVal :=
  list_to_map
    (List.filter (fun m => negb (strict_eq (snd m) VUndefined)) members).

Definition billing_notification_body
  (phoneNumber notificationType name value pixKey : JsVal)
  : gmap string JsVal :=
  json_object [("number", phoneNumber); ("type", notificationType);
               ("service", name); ("value", value); ("pixKey", pixKey)].

(** Running a computation of [M]: unfold the monad and the primitive
    effects, leaving the collaborators' answers to case analysis. *)
Ltac run_M :=
  cbv [mbind M_bind mret M_ret throw try_catch get_world logger setTimeout
       set_isConnected set_sock set_table record_send may_fail logged
       fst snd].

(* ===================================================================== *)
(** * Properties of the string primitives *)
(* ===================================================================== *)

(** stdpp blocks the unfolding of string append; the proofs below
    compute with it. *)
#[local] Arguments String.append !_ _ / : simpl nomatch.

Section JsStringFacts.
Import JsString.

Lemma startsWith_app (p s : string) : startsWith (p +:+ s) p = true.
Proof.
  induction p as [|c p IH]; simpl; [reflexivity|].
  now rewrite Ascii.eqb_refl.
Qed.

Lemma startsWith_one (c a : ascii) (s : string) :
  startsWith (String c s) (String a "") = Ascii.eqb c a.
Proof. cbn. now destruct (Ascii.eqb c a). Qed.

Lemma startsWith_app_l (s t p : string) :
  startsWith s p = true -> startsWith (s +:+ t) p = true.
Proof.
  revert s; induction p as [|a p IH]; intros s; [reflexivity|].
  destruct s as [|c s]; cbn; [discriminate|].
  destruct (Ascii.eqb c a); [apply IH|discriminate].
Qed.

Lemma endsWith_app (s p : string) : endsWith (s +:+ p) p = true.
Proof.
  induction s as [|c s IH].
  - change ("" +:+ p) with p. destruct p as [|a p]; [reflexivity|].
    unfold endsWith. now rewrite String.eqb_refl.
  - change (String c s +:+ p) with (String c (s +:+ p)).
    cbn [endsWith].
    destruct (String.eqb (String c (s +:+ p)) p); [reflexivity|exact IH].
Qed.

Lemma includes_app (a s b : string) : includes (a +:+ s +:+ b) s = true.
Proof.
  induction a as [|c a IH]; simpl.
  - destruct (s +:+ b) eqn:E; simpl;
      (rewrite <- E, startsWith_app; reflexivity).
  - destruct (startsWith (String c (a +:+ s +:+ b)) s); [reflexivity|exact IH].
Qed.

Lemma replace_non_digits_app (a b : string) :
  replace_non_digits (a +:+ b)
  = replace_non_digits a +:+ replace_non_digits b.
Proof.
  induction a as [|c a IH]; simpl; [reflexivity|].
  destruct (is_digit c); simpl; now rewrite IH.
Qed.

Lemma replace_non_digits_all_digits (s : string) :
  all_digits (replace_non_digits s) = true.
Proof.
  induction s as [|c s IH]; simpl; [reflexivity|].
  destruct (is_digit c) eqn:E; simpl; [now rewrite E|exact IH].
Qed.

Lemma replace_non_digits_id (s : string) :
  all_digits s = true -> replace_non_digits s = s.
Proof.
  induction s as [|c s IH]; simpl; [reflexivity|].
  intros [Hc Hs]%andb_prop. rewrite Hc. now rewrite IH.
Qed.

Lemma all_digits_substring (s : string) (n : nat) :
  all_digits s = true -> all_digits (substring s n) = true.
Proof.
  revert s; induction n as [|n IH]; intros [|c s]; simpl; auto.
  intros [_ Hs]%andb_prop. now apply IH.
Qed.

Lemma list_of_replace_non_digits (s : string) :
  list_ascii_of_string (replace_non_digits s)
  = NormalizeSpec.strip_non_digits (list_ascii_of_string s).
Proof.
  unfold NormalizeSpec.strip_non_digits.
  induction s as [|c s IH]; simpl; [reflexivity|].
  destruct (is_digit c) eqn:E; simpl.
  - rewrite filter_cons_True by (now rewrite E). now rewrite IH.
  - rewrite filter_cons_False by (now rewrite E). exact IH.
Qed.

Lemma drop_leading_zero_cons (c : ascii) (l : list ascii) :
  NormalizeSpec.drop_leading_zero (c :: l)
  = if Ascii.eqb c "0" then l else c :: l.
Proof.
  destruct c as [[] [] [] [] [] [] [] []]; reflexivity.
Qed.

Lemma has_country_code_cons (c1 c2 : ascii) (l : list ascii) :
  NormalizeSpec.has_country_code (c1 :: c2 :: l)
  = Ascii.eqb c1 "5" && Ascii.eqb c2 "5".
Proof.
  destruct c1 as [[] [] [] [] [] [] [] []]; try reflexivity.
  destruct c2 as [[] [] [] [] [] [] [] []]; reflexivity.
Qed.

End JsStringFacts.

(* ===================================================================== *)
(** * Address normalization *)
(* ===================================================================== *)

Section Normalization.
Import JsString.

Lemma append_empty_r (s : string) : s +:+ "" = s.
Proof. induction s as [|c s IH]; [reflexivity|]. cbn. now f_equal. Qed.

Lemma string_of_list_ascii_app (l1 l2 : list ascii) :
  string_of_list_ascii (l1 ++ l2)
  = string_of_list_ascii l1 +:+ string_of_list_ascii l2.
Proof. induction l1 as [|c l1 IH]; [reflexivity|]. cbn. now f_equal. Qed.

Lemma startsWith_55_not_0 (s : string) :
  startsWith s "55" = true -> startsWith s "0" = false.
Proof.
  destruct s as [|c s]; simpl; [discriminate|].
  destruct (Ascii.eqb_spec c "5") as [->|]; [reflexivity|discriminate].
Qed.

(** The country-code step of the source and of the specification agree. *)
Lemma country_code_step (d : string) :
  string_of_list_ascii
    (NormalizeSpec.with_country_code (list_ascii_of_string d)
     ++ list_ascii_of_string WHATSAPP_SUFFIX)
  = (if negb (startsWith d "55") then "55" +:+ d else d)
    +:+ "@s.whatsapp.net".
Proof.
  rewrite string_of_list_ascii_app. f_equal.
  unfold NormalizeSpec.with_country_code.
  destruct d as [|c1 [|c2 d]].
  - reflexivity.
  - cbn. destruct (Ascii.eqb c1 "5");
      destruct c1 as [[] [] [] [] [] [] [] []]; reflexivity.
  - cbn [list_ascii_of_string]. rewrite has_country_code_cons.
    cbn [startsWith].
    destruct (Ascii.eqb c1 "5"), (Ascii.eqb c2 "5"); cbn [andb negb];
      try (change (list_ascii_of_string COUNTRY_CODE ++ ?l)
             with ("5"%char :: "5"%char :: l));
      cbn [string_of_list_ascii String.append];
      now rewrite ?string_of_list_ascii_of_string.
Qed.

(** The normalized address is a run of digits that begins with the
    country code, followed by the suffix. *)
Lemma formatPhoneNumber_shape (x : string) :
  exists body,
    formatPhoneNumber x = body +:+ WHATSAPP_SUFFIX
    /\ all_digits body = true
    /\ startsWith body "55" = true.
Proof.
  unfold formatPhoneNumber.
  pose proof (replace_non_digits_all_digits x) as Hd.
  set (d := replace_non_digits x) in *.
  assert (Hd1 : all_digits
                  (if startsWith d "0" then substring d 1 else d) = true).
  { destruct (startsWith d "0"); [now apply all_digits_substring|exact Hd]. }
  set (d1 := if startsWith d "0" then substring d 1 else d) in *.
  destruct (startsWith d1 "55") eqn:E; cbn [negb].
  - exists d1. auto.
  - exists ("55" +:+ d1).
    split; [reflexivity|split; [exact Hd1|apply (startsWith_app "55")]].
Qed.

(** An address of that shape is a fixed point of the normalization. *)
Lemma formatPhoneNumber_fixes_normalized (body : string) :
  all_digits body = true ->
  startsWith body "55" = true ->
  formatPhoneNumber (body +:+ WHATSAPP_SUFFIX) = body +:+ WHATSAPP_SUFFIX.
Proof.
  intros Hd H55. unfold formatPhoneNumber.
  rewrite replace_non_digits_app, (replace_non_digits_id body Hd).
  change (replace_non_digits WHATSAPP_SUFFIX) with "".
  rewrite append_empty_r, (startsWith_55_not_0 body H55), H55.
  reflexivity.
Qed.

(** C2: address normalization strips the non-digits, drops one leading
    zero, prepends the country code 55 unless the digits already begin
    with it, and appends the suffix: on every input string
    [formatPhoneNumber] agrees with the normalization as the
    specification words it.  In particular "11999999999" and
    "011999999999" both give "5511999999999@s.whatsapp.net", and
    "5511999999999" keeps its digits and gets the suffix once. *)
Theorem formatPhoneNumber_refines_normalize :
  (forall x : string, formatPhoneNumber x = NormalizeSpec.normalize x)
  /\ formatPhoneNumber "11999999999" = "5511999999999@s.whatsapp.net"
  /\ formatPhoneNumber "011999999999" = "5511999999999@s.whatsapp.net"
  /\ formatPhoneNumber "5511999999999" = "5511999999999" +:+ WHATSAPP_SUFFIX.
Proof.
  split; [|repeat split; reflexivity].
  intros x. unfold NormalizeSpec.normalize.
  rewrite <- list_of_replace_non_digits.
  unfold formatPhoneNumber.
  destruct (replace_non_digits x) as [|c d].
  - reflexivity.
  - cbn [list_ascii_of_string]. rewrite drop_leading_zero_cons.
    rewrite startsWith_one.
    destruct (Ascii.eqb c "0").
    + cbn [substring]. now rewrite country_code_step.
    + change (c :: list_ascii_of_string d)
        with (list_ascii_of_string (String c d)).
      now rewrite country_code_step.
Qed.

(** C7: address normalization is total and idempotent on its own
    output: normalizing the suffix-bearing normalized form of any string
    gives that form back. *)
Theorem formatPhoneNumber_idempotent (x : string) :
  formatPhoneNumber (formatPhoneNumber x) = formatPhoneNumber x.
Proof.
  destruct (formatPhoneNumber_shape x) as (body & -> & Hd & H55).
  now apply formatPhoneNumber_fixes_normalized.
Qed.

(** C9: for every input string the normalized address begins with 55
    and ends with the suffix @s.whatsapp.net, and the leading-zero drop
    is applied once only: when the digits of the input begin with 00,
    the second zero stays in the normalized number, right after the
    country code. *)
Theorem formatPhoneNumber_prefix_suffix (x : string) :
  startsWith (formatPhoneNumber x) "55" = true
  /\ endsWith (formatPhoneNumber x) "@s.whatsapp.net" = true
  /\ (forall rest : string,
        replace_non_digits x = "00" +:+ rest ->
        formatPhoneNumber x = "550" +:+ rest +:+ "@s.whatsapp.net").
Proof.
  split; [|split].
  - destruct (formatPhoneNumber_shape x) as (body & -> & _ & H55).
    now apply startsWith_app_l.
  - destruct (formatPhoneNumber_shape x) as (body & -> & _ & _).
    apply endsWith_app.
  - intros rest E. unfold formatPhoneNumber. rewrite E. reflexivity.
Qed.

End Normalization.

(* ===================================================================== *)
(** * The randomized delay *)
(* ===================================================================== *)

Section RandomDelay.

(** Rounding to 53 bits moves a significand below [2^64] by at most
    [2^10], and never below zero. *)
Lemma round_significand_bounds (n : Z) :
  0 <= n < 2 ^ 64 ->
  0 <= round_significand n <= n + 2 ^ 10.
Proof.
  intros [Hn0 Hn]. unfold round_significand.
  destruct (Z.leb_spec (Z.log2 n - 52) 0) as [Hs|Hs]; [lia|].
  assert (Hpos : 0 < n).
  { destruct (Z.eq_dec n 0) as [->|]; [simpl in Hs; lia|lia]. }
  assert (Hlog : Z.log2 n < 64) by (apply Z.log2_lt_pow2; lia).
  set (s := Z.log2 n - 52) in *.
  assert (Hs11 : s <= 11) by lia.
  assert (Hp : 0 < 2 ^ s) by (apply Z.pow_pos_nonneg; lia).
  assert (Hhalf : 2 ^ s = 2 * 2 ^ (s - 1)).
  { rewrite <- Z.pow_succ_r by lia. f_equal. lia. }
  assert (Hh10 : 2 ^ (s - 1) <= 2 ^ 10) by (apply Z.pow_le_mono_r; lia).
  pose proof (Z.div_mod n (2 ^ s) ltac:(lia)) as Hdm.
  pose proof (Z.mod_pos_bound n (2 ^ s) Hp) as Hr.
  assert (Hq : 0 <= n / 2 ^ s) by (apply Z.div_pos; lia).
  set (q := n / 2 ^ s) in *. set (r := n mod 2 ^ s) in *.
  set (h := 2 ^ (s - 1)) in *.
  destruct (Z.ltb_spec r h) as [Hrh|Hrh].
  - nia.
  - destruct (Z.ltb_spec h r) as [Hhr|Hhr]; [nia|].
    destruct (Z.even q); nia.
Qed.

(** The floor of the scaled draw lies in [[0, c - 1]] for a positive
    scale of at most eleven bits. *)
Lemma floor_of_scaled_draw_range (d : Draw) (c : Z) :
  in_unit_interval d = true ->
  2 ^ 10 < c < 2 ^ 11 ->
  0 <= floor_of_scaled_draw d c <= c - 1.
Proof.
  unfold in_unit_interval, floor_of_scaled_draw.
  intros H Hc.
  apply andb_prop in H as [H Hme]. apply andb_prop in H as [H He].
  apply andb_prop in H as [Hm0 Hm53].
  apply Z.leb_le in Hm0, He. apply Z.ltb_lt in Hm53, Hme.
  assert (Hn : 0 <= mantissa d * c < 2 ^ 64).
  { change (2 ^ 64) with (2 ^ 53 * 2 ^ 11). nia. }
  pose proof (round_significand_bounds _ Hn) as [Hr0 Hr].
  assert (Hp : 0 < 2 ^ exponent d) by (apply Z.pow_pos_nonneg; lia).
  split.
  - apply Z.div_pos; lia.
  - assert (round_significand (mantissa d * c) / 2 ^ exponent d < c);
      [|lia].
    apply Z.div_lt_upper_bound; [lia|].
    change (2 ^ 10) with 1024 in *. nia.
Qed.

(** C6, as the code has it: for every draw of [Math.random] in
    [[0, 1)] the delay [randomDelay()] waits is at least 1000 and at
    most 3000 milliseconds, both ends included. *)
Theorem randomDelay_within_closed_range (d : Draw) :
  in_unit_interval d = true ->
  1000 <= randomDelay_ms DEFAULT_MIN_DELAY DEFAULT_MAX_DELAY d <= 3000.
Proof.
  intros H. unfold randomDelay_ms, DEFAULT_MIN_DELAY, DEFAULT_MAX_DELAY.
  pose proof (floor_of_scaled_draw_range d (3000 - 1000 + 1) H) as R.
  change (3000 - 1000 + 1) with 2001 in *.
  assert (2 ^ 10 < 2001 < 2 ^ 11) as Hc by (cbn; lia).
  specialize (R Hc). lia.
Qed.

End RandomDelay.

(* ===================================================================== *)
(** * Session store adapter *)
(* ===================================================================== *)

Section StoreAdapter.

(** [loadState] always returns, whatever the store does. *)
Lemma loadState_returns (fault : StoreFault) (w : World) :
  exists state, fst (loadState fault w) = Returned state.
Proof.
  unfold loadState, supabase_select_single.
  destruct fault as [|e|e]; run_M.
  - destruct (whatsapp_auth w !! SESSION_ID) as [[state|]|]; eauto.
  - cbv [error code]. destruct (String.eqb _ "PGRST116"); eauto.
  - eauto.
Qed.

(** A missing row or a failed retrieval gives the empty state. *)
Lemma loadState_degrades (fault : StoreFault) (w : World) :
  fault <> NoFault \/ whatsapp_auth w !! SESSION_ID = None ->
  fst (loadState fault w) = Returned EMPTY_STATE.
Proof.
  unfold loadState, supabase_select_single.
  intros H. destruct fault as [|e|e]; run_M.
  - destruct H as [H|H]; [congruence|]. now rewrite H.
  - cbv [error code]. now destruct (String.eqb _ "PGRST116").
  - reflexivity.
Qed.

(** A failed save is one error-level log entry and nothing else. *)
Lemma saveState_failure (fault : StoreFault) (state : AuthState) (w : World) :
  fault <> NoFault ->
  exists reason,
    saveState fault state w
    = (Returned tt,
       logged (LoggerError "❌ Error saving auth state:" [VStr reason]) w).
Proof.
  unfold saveState, supabase_upsert.
  intros H. destruct fault as [|e|e]; [congruence| |]; run_M.
  - now exists (pg_message e).
  - now exists (message e).
Qed.

Lemma saveState_returns (fault : StoreFault) (state : AuthState) (w : World) :
  fst (saveState fault state w) = Returned tt.
Proof.
  destruct fault as [|e|e]; [reflexivity| |];
    (edestruct saveState_failure as [reason ->]; [discriminate|reflexivity]).
Qed.

(** What a served save writes is what the next served load reads
    back. *)
Lemma load_after_save (state : AuthState) (w : World) :
  fst (loadState NoFault (snd (saveState NoFault state w))) = Returned state.
Proof.
  unfold loadState, saveState, supabase_select_single, supabase_upsert.
  run_M. cbv [whatsapp_auth]. now rewrite lookup_insert_eq.
Qed.

(** C5: the session store adapter never raises to its caller.  [load]
    always returns; on a missing row or on any retrieval failure the
    state it returns is the empty, non-null [{ creds: null, keys: null }].
    [save] always returns; on any store failure its whole effect is one
    error-level log entry (nothing is written, nothing is thrown). *)
Theorem store_adapter_never_raises :
  (forall fault w, exists state, fst (loadState fault w) = Returned state)
  /\ (forall fault w,
        fault <> NoFault \/ whatsapp_auth w !! SESSION_ID = None ->
        fst (loadState fault w) = Returned EMPTY_STATE)
  /\ (forall fault state w, fst (saveState fault state w) = Returned tt)
  /\ (forall fault state w,
        fault <> NoFault ->
        exists reason,
          saveState fault state w
          = (Returned tt,
             logged (LoggerError "❌ Error saving auth state:" [VStr reason]) w)).
Proof.
  repeat split.
  - apply loadState_returns.
  - apply loadState_degrades.
  - apply saveState_returns.
  - apply saveState_failure.
Qed.

End StoreAdapter.

(* ===================================================================== *)
(** * Connection manager and deliver-text operation *)
(* ===================================================================== *)

Section ConnectionManager.

Variable loggedOut : Z.

Lemma strict_eq_VNum (v : JsVal) (c : Z) :
  strict_eq v (VNum c) = true <-> v = VNum c.
Proof.
  destruct v; cbn; try (split; [discriminate|congruence]).
  rewrite Z.eqb_eq. split; congruence.
Qed.

Lemma strict_eq_VNum_false (v : JsVal) (c : Z) :
  strict_eq v (VNum c) = false <-> v <> VNum c.
Proof.
  rewrite <- strict_eq_VNum. now destruct (strict_eq v (VNum c)).
Qed.

(** The timers a close event leaves behind. *)
Lemma close_timers (update : ConnectionUpdate) (w : World) :
  connection update = VStr "close" ->
  timers (snd (on_connection_update loggedOut update w))
  = if strict_eq (statusCode_of (lastDisconnect update)) (VNum loggedOut)
    then timers w
    else timers w ++ [RECONNECT_TIMER].
Proof.
  intros Hc. unfold on_connection_update. rewrite Hc.
  destruct (truthy (qr update));
    destruct (strict_eq (statusCode_of (lastDisconnect update))
                (VNum loggedOut)); reflexivity.
Qed.

(** C3: on a close event that carries the logged-out reason no timer
    is scheduled; on a close event with any other reason, an absent one
    included, exactly one timer is scheduled: a call of
    [connectToWhatsApp] after 5000 milliseconds. *)
Theorem close_reconnect_policy (update : ConnectionUpdate) (w : World) :
  connection update = VStr "close" ->
  (statusCode_of (lastDisconnect update) = VNum loggedOut ->
   timers (snd (on_connection_update loggedOut update w)) = timers w)
  /\ (statusCode_of (lastDisconnect update) <> VNum loggedOut ->
      timers (snd (on_connection_update loggedOut update w))
      = timers w ++ [RECONNECT_TIMER]).
Proof.
  intros Hc. rewrite (close_timers update w Hc). split; intros H.
  - apply strict_eq_VNum in H. now rewrite H.
  - apply strict_eq_VNum_false in H. now rewrite H.
Qed.

(** The flag after a close event: only the logged-out branch clears
    it. *)
Lemma close_isConnected (update : ConnectionUpdate) (w : World) :
  connection update = VStr "close" ->
  isConnected (snd (on_connection_update loggedOut update w))
  = if strict_eq (statusCode_of (lastDisconnect update)) (VNum loggedOut)
    then false
    else isConnected w.
Proof.
  intros Hc. unfold on_connection_update. rewrite Hc.
  destruct (truthy (qr update));
    destruct (strict_eq (statusCode_of (lastDisconnect update))
                (VNum loggedOut)); reflexivity.
Qed.

(** C4: every call of [sendWhatsAppMessage] made while the
    Connected-state flag is false or there is no socket object throws
    the same "WhatsApp not connected" error and leaves the process state
    as it was: the transport's send primitive is not invoked, no timer
    is set, nothing is logged. *)
Theorem send_requires_connection
  (number : JsVal) (msg : string) (env : SendEnv) (w : World) :
  isConnected w = false \/ sock w = None ->
  sendWhatsAppMessage number msg env w = (Threw NOT_CONNECTED, w).
Proof.
  intros H. unfold sendWhatsAppMessage. run_M.
  destruct H as [H|H]; rewrite H; [reflexivity|].
  now destruct (isConnected w).
Qed.

End ConnectionManager.

(* ===================================================================== *)
(** * Express routes *)
(* ===================================================================== *)

Section Routes.

(** With the session open, a send to an address that normalizes makes
    one call of the transport's send primitive, whether or not that call
    then fails. *)
Lemma send_when_connected
  (number : JsVal) (msg : string) (env : SendEnv) (w : World) (s : Sock)
  (address : string) :
  isConnected w = true ->
  sock w = Some s ->
  fst (formatPhoneNumber_of number w) = Returned address ->
  outbox (snd (sendWhatsAppMessage number msg env w))
  = outbox w ++ [{| via := sock_id s; jid := address; text := msg |}].
Proof.
  intros Hconn Hsock Haddr. unfold sendWhatsAppMessage.
  unfold mbind at 1. unfold M_bind at 1. cbv [get_world].
  rewrite Hconn, Hsock. cbn [negb orb is_null].
  unfold formatPhoneNumber_of in *.
  destruct number; try discriminate Haddr.
  injection Haddr as <-. run_M. rewrite Hsock.
  destruct (transport_failure env); reflexivity.
Qed.

Variable API_KEY : string.

Lemma falsy_json_not_truthy (v : JsVal) : In v FALSY_JSON -> truthy v = false.
Proof.
  intros [<-|[<-|[<-|[<-|[]]]]]; reflexivity.
Qed.

Lemma body_field_lookup (req : Request) (key : string) (v : JsVal) :
  body req !! key = Some v -> body_field req key = v.
Proof. intros H. unfold body_field. now rewrite H. Qed.

(** C10: both POST handlers test the truthiness of the required
    fields, not their presence: when a required field is present in the
    body with a falsy value (the empty string, the number 0, false or
    null), the handler answers with its 400 "Missing required fields"
    response and the process state is untouched, so that no send is
    attempted. *)
Theorem validation_tests_truthiness (req : Request) (env : SendEnv) (w : World) :
  (forall key v,
     In key OTP_REQUIRED -> body req !! key = Some v -> In v FALSY_JSON ->
     send_otp_handler req env w = (Returned MISSING_OTP_FIELDS, w))
  /\ (forall key v,
        In key BILLING_REQUIRED -> body req !! key = Some v ->
        In v FALSY_JSON ->
        notify_billing_handler req env w
        = (Returned MISSING_BILLING_FIELDS, w)).
Proof.
  split; intros key v Hkey Hbody Hv;
    apply (body_field_lookup req key v) in Hbody;
    apply falsy_json_not_truthy in Hv; rewrite <- Hbody in Hv.
  - unfold send_otp_handler.
    destruct Hkey as [<-|[<-|[]]]; rewrite Hv; cbn [negb];
      rewrite ?orb_true_r, ?orb_true_l; reflexivity.
  - unfold notify_billing_handler.
    destruct Hkey as [<-|[<-|[<-|[<-|[<-|[]]]]]]; rewrite Hv; cbn [negb];
      rewrite ?orb_true_r, ?orb_true_l; reflexivity.
Qed.

(** C8, as the code has it: an authenticated overdue notice (type D+1)
    with the example fixture, for a non-empty number string and an open
    session, makes exactly one call of the transport's send primitive,
    addressed to the normalized number; its text contains the three
    interpolated values (the service, the value exactly as given after
    "R$ ", and the Pix key).  The type selects the template and is not
    part of the text. *)
Theorem overdue_notice_sends_once
  (req : Request) (env : SendEnv) (w : World) (s : Sock) (number : string) :
  headers req !! "x-api-key" = Some API_KEY ->
  API_KEY <> "" ->
  body req !! "number" = Some (VStr number) ->
  number <> "" ->
  body req !! "type" = Some (VStr "D+1") ->
  body req !! "service" = Some (VStr "Netflix Premium") ->
  body req !! "value" = Some (VStr "14.90") ->
  body req !! "pixKey" = Some (VStr "email@exemplo.com") ->
  isConnected w = true ->
  sock w = Some s ->
  exists m,
    outbox (snd (post_notify_billing API_KEY req env w)) = outbox w ++ [m]
    /\ jid m = formatPhoneNumber number
    /\ text m = billing_message_D_plus_1 (VStr "Netflix Premium")
                  (VStr "14.90") (VStr "email@exemplo.com")
    /\ JsString.includes (text m) "Netflix Premium" = true
    /\ JsString.includes (text m) "R$ 14.90" = true
    /\ JsString.includes (text m) "email@exemplo.com" = true
    /\ JsString.includes (text m) "D+1" = false.
Proof.
  intros Hkey Hne Hnum Hnum0 Htype Hservice Hvalue Hpix Hconn Hsock.
  apply String.eqb_neq in Hne, Hnum0.
  unfold post_notify_billing, route, validateApiKey.
  rewrite Hkey, Hne, String.eqb_refl. cbn [orb negb].
  unfold notify_billing_handler.
  rewrite (body_field_lookup _ _ _ Hnum), (body_field_lookup _ _ _ Htype),
    (body_field_lookup _ _ _ Hservice), (body_field_lookup _ _ _ Hvalue),
    (body_field_lookup _ _ _ Hpix).
  cbn [truthy]. rewrite Hnum0. cbn [String.eqb Ascii.eqb Bool.eqb negb orb].
  change (billing_message (VStr "D+1") (VStr "Netflix Premium")
            (VStr "14.90") (VStr "email@exemplo.com"))
    with (Some (billing_message_D_plus_1 (VStr "Netflix Premium")
                  (VStr "14.90") (VStr "email@exemplo.com"))).
  set (msg := billing_message_D_plus_1 _ _ _).
  exists {| via := sock_id s; jid := formatPhoneNumber number; text := msg |}.
  split; [|repeat split; reflexivity].
  pose proof (send_when_connected (VStr number) msg env w s
                (formatPhoneNumber number) Hconn Hsock eq_refl) as Hsend.
  unfold try_catch, mbind, M_bind.
  destruct (sendWhatsAppMessage (VStr number) msg env w) as [[[]|e] w1];
    cbn [snd] in Hsend; rewrite <- Hsend; reflexivity.
Qed.

(** The delay a successful gate check waits is the one timer the
    send sets, with the milliseconds of [randomDelay()]. *)
Lemma send_delay_timer
  (number msg : string) (env : SendEnv) (w : World) (s : Sock) :
  isConnected w = true ->
  sock w = Some s ->
  timers (snd (sendWhatsAppMessage (VStr number) msg env w))
  = timers w
    ++ [{| callback := ResolveDelay;
           delay := randomDelay_ms DEFAULT_MIN_DELAY DEFAULT_MAX_DELAY
                      (draw env) |}].
Proof.
  intros Hconn Hsock. unfold sendWhatsAppMessage.
  unfold mbind at 1. unfold M_bind at 1. cbv [get_world].
  rewrite Hconn, Hsock. cbn [negb orb is_null].
  unfold formatPhoneNumber_of. run_M. rewrite Hsock.
  destruct (transport_failure env); reflexivity.
Qed.

End Routes.

(* ===================================================================== *)
(** * Worked instances *)
(* ===================================================================== *)

Section Instances.
Import Sample.

(** Rounding to a double: exact below [2^53], to nearest above, ties to
    the even significand. *)
Example round_significand_exact : round_significand (4095 * 2001) = 8194095.
Proof. reflexivity. Qed.

Example round_significand_tie_down :
  round_significand (2 ^ 53 + 1) = 2 ^ 53.
Proof. reflexivity. Qed.

Example round_significand_tie_up :
  round_significand (2 ^ 53 + 3) = 2 ^ 53 + 4.
Proof. reflexivity. Qed.

Example randomDelay_of_zero :
  randomDelay_ms 1000 3000 {| mantissa := 0; exponent := 0 |} = 1000.
Proof. reflexivity. Qed.

Example randomDelay_of_half : randomDelay_ms 1000 3000 half = 2000.
Proof. reflexivity. Qed.

Example formatPhoneNumber_punctuated :
  formatPhoneNumber "+55 (11) 99999-9999" = "5511999999999@s.whatsapp.net".
Proof. reflexivity. Qed.

Example formatPhoneNumber_no_digits :
  formatPhoneNumber "abc" = "55@s.whatsapp.net".
Proof. reflexivity. Qed.

Example formatPhoneNumber_double_zero :
  formatPhoneNumber "0011999999999" = "55011999999999@s.whatsapp.net".
Proof. reflexivity. Qed.

(** C6 fails as stated: the draw 4095/4096 is below 1 and its delay is
    3000 milliseconds, so the delay is not always strictly less than
    3000. *)
Lemma randomDelay_reaches_3000 :
  ~ (forall d : Draw,
       in_unit_interval d = true ->
       1000 <= randomDelay_ms DEFAULT_MIN_DELAY DEFAULT_MAX_DELAY d < 3000).
Proof.
  intros H. specialize (H near_one eq_refl).
  change (randomDelay_ms DEFAULT_MIN_DELAY DEFAULT_MAX_DELAY near_one)
    with 3000 in H.
  lia.
Qed.

(** The closed range at the draw 4095/4096. *)
Lemma randomDelay_within_closed_range_at_near_one :
  in_unit_interval near_one = true
  /\ 1000 <= randomDelay_ms DEFAULT_MIN_DELAY DEFAULT_MAX_DELAY near_one <= 3000.
Proof.
  split; [reflexivity|].
  apply (randomDelay_within_closed_range near_one). reflexivity.
Defined.

(** C8 fails as stated: the overdue notice of the fixture is sent
    once, and its text holds the service, the value and the Pix key, but
    not a fourth request value: neither the type "D+1" nor the number is
    interpolated. *)
Lemma overdue_text_omits_type :
  exists m,
    outbox (snd (post_notify_billing KEY billing_request calm connected)) = [m]
    /\ JsString.includes (text m) "Netflix Premium" = true
    /\ JsString.includes (text m) "14.90" = true
    /\ JsString.includes (text m) "email@exemplo.com" = true
    /\ JsString.includes (text m) "D+1" = false
    /\ JsString.includes (text m) "11999999999" = false.
Proof.
  eexists. split; [vm_compute; reflexivity|].
  repeat split; vm_compute; reflexivity.
Qed.

(** The fixture request, authenticated, against an open session. *)
Lemma overdue_notice_sends_once_at_fixture :
  exists m,
    outbox (snd (post_notify_billing KEY billing_request calm connected))
    = outbox connected ++ [m]
    /\ jid m = formatPhoneNumber "11999999999"
    /\ text m = billing_message_D_plus_1 (VStr "Netflix Premium")
                  (VStr "14.90") (VStr "email@exemplo.com")
    /\ JsString.includes (text m) "Netflix Premium" = true
    /\ JsString.includes (text m) "R$ 14.90" = true
    /\ JsString.includes (text m) "email@exemplo.com" = true
    /\ JsString.includes (text m) "D+1" = false.
Proof.
  apply (overdue_notice_sends_once KEY billing_request calm connected
           live_sock "11999999999");
    solve [reflexivity | discriminate].
Defined.

(** C1, where the code departs from it: after a timed-out close in an
    open session the flag still reads connected, the health check
    reports connected, and a send passes the gate and calls the send
    primitive of the closed socket.  Only the logged-out branch of the
    handler clears the flag. *)
Lemma transient_close_keeps_flag :
  let w' := snd (on_connection_update LOGGED_OUT
                   (close_with (VNum TIMED_OUT)) connected) in
  isConnected w' = true
  /\ fst (health "2026-01-20T14:00:00.000Z" w')
     = Returned {| status := 200;
                   json := [("success", VBool true);
                            ("connected", VBool true);
                            ("timestamp", VStr "2026-01-20T14:00:00.000Z")] |}
  /\ outbox (snd (sendWhatsAppMessage (VStr "11999999999") "oi" calm w'))
     = [{| via := 0; jid := "5511999999999@s.whatsapp.net"; text := "oi" |}]
  /\ isConnected (snd (on_connection_update LOGGED_OUT
                         (close_with (VNum LOGGED_OUT)) connected)) = false.
Proof. repeat split; vm_compute; reflexivity. Qed.

(** The reconnect policy at a logged-out close and at a close without
    a reason. *)
Lemma close_reconnect_policy_at_samples :
  timers (snd (on_connection_update LOGGED_OUT
                 (close_with (VNum LOGGED_OUT)) connected))
  = timers connected
  /\ timers (snd (on_connection_update LOGGED_OUT bare_close connected))
     = timers connected ++ [RECONNECT_TIMER].
Proof.
  split.
  - apply (close_reconnect_policy LOGGED_OUT (close_with (VNum LOGGED_OUT))
             connected eq_refl).
    reflexivity.
  - apply (close_reconnect_policy LOGGED_OUT bare_close connected eq_refl).
    discriminate.
Defined.

(** A send before the session has opened. *)
Lemma send_requires_connection_at_connecting :
  isConnected connecting = false
  /\ sendWhatsAppMessage (VStr "11999999999") "oi" calm connecting
     = (Threw NOT_CONNECTED, connecting).
Proof.
  split; [reflexivity|].
  apply (send_requires_connection (VStr "11999999999") "oi" calm connecting).
  left. reflexivity.
Defined.

(** The adapter against an unreachable store, and against an empty
    table. *)
Lemma store_adapter_never_raises_at_outage :
  fst (loadState unreachable connected) = Returned EMPTY_STATE
  /\ fst (loadState NoFault connected) = Returned EMPTY_STATE
  /\ exists reason,
       saveState unreachable EMPTY_STATE connected
       = (Returned tt,
          logged (LoggerError "❌ Error saving auth state:" [VStr reason])
            connected).
Proof.
  destruct store_adapter_never_raises as (_ & Hload & _ & Hsave).
  split; [|split].
  - apply Hload. left. discriminate.
  - apply Hload. right. reflexivity.
  - apply Hsave. discriminate.
Defined.

(** An international-access prefix 00 loses one zero only. *)
Lemma formatPhoneNumber_prefix_suffix_at_double_zero :
  JsString.replace_non_digits "00 11 99999-9999" = "00" +:+ "11999999999"
  /\ formatPhoneNumber "00 11 99999-9999" = "55011999999999@s.whatsapp.net".
Proof.
  split; [reflexivity|].
  destruct (formatPhoneNumber_prefix_suffix "00 11 99999-9999") as (_ & _ & H).
  apply (H "11999999999"). reflexivity.
Defined.

(** An OTP request whose code is the number 0, and a billing request
    whose value is the empty string. *)
Lemma validation_tests_truthiness_at_samples :
  send_otp_handler otp_zero_code calm connected
  = (Returned MISSING_OTP_FIELDS, connected)
  /\ notify_billing_handler billing_empty_value calm connected
     = (Returned MISSING_BILLING_FIELDS, connected).
Proof.
  split.
  - apply (proj1 (validation_tests_truthiness otp_zero_code calm connected)
             "code" (VNum 0)).
    + right. left. reflexivity.
    + reflexivity.
    + right. left. reflexivity.
  - apply (proj2 (validation_tests_truthiness billing_empty_value calm
                    connected) "value" (VStr "")).
    + do 3 right. left. reflexivity.
    + reflexivity.
    + left. reflexivity.
Defined.

End Instances.

(* ===================================================================== *)
(** * More on the utility functions *)
(* ===================================================================== *)

Section UtilityFacts.
Import JsString.

(** Below [2^53] a significand is a double already. *)
Lemma round_significand_small (n : Z) :
  0 <= n < 2 ^ 53 -> round_significand n = n.
Proof.
  intros [H0 H]. unfold round_significand.
  destruct (Z.leb_spec (Z.log2 n - 52) 0) as [|Hs]; [reflexivity|].
  assert (0 < n) by (destruct (Z.eq_dec n 0) as [->|]; [simpl in Hs|]; lia).
  assert (Z.log2 n < 53) by (apply Z.log2_lt_pow2; lia). lia.
Qed.

(** Rounding moves a significand up by at most one part in [2^53]. *)
Lemma round_significand_error (n : Z) :
  0 <= n ->
  0 <= round_significand n /\ (round_significand n - n) * 2 ^ 53 <= n.
Proof.
  intros Hn0. unfold round_significand.
  destruct (Z.leb_spec (Z.log2 n - 52) 0) as [Hs|Hs]; [lia|].
  assert (Hpos : 0 < n).
  { destruct (Z.eq_dec n 0) as [->|]; [simpl in Hs; lia|lia]. }
  pose proof (Z.log2_spec n Hpos) as [Hlo _].
  set (s := Z.log2 n - 52) in *.
  assert (Hp : 0 < 2 ^ s) by (apply Z.pow_pos_nonneg; lia).
  assert (Hh : 0 < 2 ^ (s - 1)) by (apply Z.pow_pos_nonneg; lia).
  assert (Hhalf : 2 ^ s = 2 * 2 ^ (s - 1)).
  { rewrite <- Z.pow_succ_r by lia. f_equal. lia. }
  assert (Hlog : 2 ^ (s - 1) * 2 ^ 53 = 2 ^ Z.log2 n).
  { rewrite <- Z.pow_add_r by lia. f_equal. lia. }
  pose proof (Z.div_mod n (2 ^ s) ltac:(lia)) as Hdm.
  pose proof (Z.mod_pos_bound n (2 ^ s) Hp) as Hr.
  assert (Hq : 0 <= n / 2 ^ s) by (apply Z.div_pos; lia).
  set (q := n / 2 ^ s) in *. set (r := n mod 2 ^ s) in *.
  set (h := 2 ^ (s - 1)) in *.
  assert (Hup : (q + 1) * 2 ^ s - n <= h -> ((q + 1) * 2 ^ s - n) * 2 ^ 53 <= n).
  { intros. transitivity (h * 2 ^ 53); [|lia].
    apply Z.mul_le_mono_nonneg_r; lia. }
  destruct (Z.ltb_spec r h) as [Hrh|Hrh]; [split; nia|].
  destruct (Z.ltb_spec h r) as [Hhr|Hhr].
  - split; [nia|]. apply Hup. nia.
  - destruct (Z.even q); [split; nia|]. split; [nia|]. apply Hup. nia.
Qed.

(** The floor of a draw scaled by a positive integer [c] is one of
    [0, ..., c - 1]. *)
Lemma floor_of_scaled_draw_below (d : Draw) (c : Z) :
  in_unit_interval d = true ->
  1 <= c ->
  0 <= floor_of_scaled_draw d c <= c - 1.
Proof.
  unfold in_unit_interval, floor_of_scaled_draw.
  intros H Hc.
  apply andb_prop in H as [H Hme]. apply andb_prop in H as [H He].
  apply andb_prop in H as [Hm0 Hm53].
  apply Z.leb_le in Hm0, He. apply Z.ltb_lt in Hm53, Hme.
  assert (Hn : 0 <= mantissa d * c) by nia.
  pose proof (round_significand_error _ Hn) as [Hr0 Hr].
  assert (Hp : 0 < 2 ^ exponent d) by (apply Z.pow_pos_nonneg; lia).
  split; [apply Z.div_pos; lia|].
  assert (round_significand (mantissa d * c) / 2 ^ exponent d < c); [|lia].
  apply Z.div_lt_upper_bound; [lia|].
  assert (round_significand (mantissa d * c) - mantissa d * c < c) by nia.
  nia.
Qed.

(** X1: for whole numbers of milliseconds [min <= max] in the range of
    [setTimeout], and every draw of [Math.random] in [[0, 1)], the delay
    [randomDelay(min, max)] waits lies between [min] and [max], both
    included. *)
Theorem randomDelay_between_min_and_max (min max : Z) (d : Draw) :
  in_unit_interval d = true ->
  0 <= min -> min <= max -> max < 2 ^ 31 ->
  min <= randomDelay_ms min max d <= max.
Proof.
  intros H Hmin Hle Hmax. unfold randomDelay_ms.
  pose proof (floor_of_scaled_draw_below d (max - min + 1) H ltac:(lia)).
  lia.
Qed.

(** X2: the range of the default delay is exactly the whole
    milliseconds from 1000 to 3000: each of them is the delay of some
    draw in [[0, 1)]. *)
Theorem randomDelay_reaches_every_delay (t : Z) :
  1000 <= t <= 3000 ->
  exists d : Draw,
    in_unit_interval d = true
    /\ randomDelay_ms DEFAULT_MIN_DELAY DEFAULT_MAX_DELAY d = t.
Proof.
  intros Ht.
  exists {| mantissa := (4096 * (t - 1000) + 2000) / 2001; exponent := 12 |}.
  unfold in_unit_interval, randomDelay_ms, floor_of_scaled_draw,
    DEFAULT_MIN_DELAY, DEFAULT_MAX_DELAY.
  cbn [mantissa exponent].
  change (3000 - 1000 + 1) with 2001. change (2 ^ 12) with 4096.
  pose proof (Z.div_mod (4096 * (t - 1000) + 2000) 2001 ltac:(lia)) as Hdm.
  pose proof (Z.mod_pos_bound (4096 * (t - 1000) + 2000) 2001 ltac:(lia))
    as Hm.
  set (j := (4096 * (t - 1000) + 2000) / 2001) in *.
  assert (Hj : 0 <= j <= 4094) by lia.
  split.
  - change (2 ^ 53) with 9007199254740992.
    repeat (apply andb_true_intro; split);
      [apply Z.leb_le|apply Z.ltb_lt|reflexivity|apply Z.ltb_lt]; lia.
  - rewrite round_significand_small
      by (change (2 ^ 53) with 9007199254740992; lia).
    assert (j * 2001 / 4096 = t - 1000); [|lia].
    symmetry.
    apply (Z.div_unique _ _ _ (j * 2001 - 4096 * (t - 1000))); lia.
Qed.

Lemma startsWith_cons_55 (c : ascii) (s : string) :
  Ascii.eqb c "0" = true -> startsWith (String c s) "55" = false.
Proof.
  intros H. apply Ascii.eqb_eq in H as ->. reflexivity.
Qed.

Lemma length_append (a b : string) :
  String.length (a +:+ b) = (String.length a + String.length b)%nat.
Proof. induction a as [|c a IH]; cbn; [reflexivity|now rewrite IH]. Qed.

(** X3: the three spellings of a number agree.  For digits [d] that
    begin neither with 0 nor with 55, the national form [d], the form
    with a trunk zero [0d] and the form with the country code [55d] all
    normalize to the address [55d@s.whatsapp.net]. *)
Theorem formatPhoneNumber_spellings_agree (d : string) :
  all_digits d = true ->
  startsWith d "0" = false ->
  startsWith d "55" = false ->
  formatPhoneNumber d = "55" +:+ d +:+ "@s.whatsapp.net"
  /\ formatPhoneNumber ("0" +:+ d) = "55" +:+ d +:+ "@s.whatsapp.net"
  /\ formatPhoneNumber ("55" +:+ d) = "55" +:+ d +:+ "@s.whatsapp.net".
Proof.
  intros Hd H0 H55. unfold formatPhoneNumber.
  rewrite !replace_non_digits_app, (replace_non_digits_id d Hd).
  change (replace_non_digits "0") with "0".
  change (replace_non_digits "55") with "55".
  split; [|split].
  - now rewrite H0, H55.
  - change ("0" +:+ d) with (String "0" d). rewrite startsWith_one.
    change (Ascii.eqb "0" "0") with true. cbv iota. cbn [substring].
    now rewrite H55.
  - rewrite (startsWith_55_not_0 _ (startsWith_app "55" d)).
    now rewrite (startsWith_app "55" d).
Qed.

(** X4: digits that begin with 55 are taken to carry the country code
    already.  A national number of area code 55 is therefore not
    prefixed, and its address differs from the one of its spelling with
    the country code. *)
Theorem formatPhoneNumber_area_code_55 (d : string) :
  all_digits d = true ->
  startsWith d "55" = true ->
  formatPhoneNumber d = d +:+ "@s.whatsapp.net"
  /\ formatPhoneNumber ("55" +:+ d) = "55" +:+ d +:+ "@s.whatsapp.net"
  /\ formatPhoneNumber d <> formatPhoneNumber ("55" +:+ d).
Proof.
  intros Hd H55.
  assert (E1 : formatPhoneNumber d = d +:+ "@s.whatsapp.net").
  { unfold formatPhoneNumber.
    rewrite (replace_non_digits_id d Hd), (startsWith_55_not_0 d H55), H55.
    reflexivity. }
  assert (E2 : formatPhoneNumber ("55" +:+ d)
               = "55" +:+ d +:+ "@s.whatsapp.net").
  { unfold formatPhoneNumber.
    rewrite replace_non_digits_app, (replace_non_digits_id d Hd).
    change (replace_non_digits "55") with "55".
    rewrite (startsWith_55_not_0 _ (startsWith_app "55" d)).
    now rewrite (startsWith_app "55" d). }
  split; [exact E1|split; [exact E2|]].
  rewrite E1, E2. intros E. apply (f_equal String.length) in E.
  rewrite !length_append in E. cbn in E. lia.
Qed.

End UtilityFacts.

(* ===================================================================== *)
(** * More on the session store adapter *)
(* ===================================================================== *)

Section StoreAdapterFacts.

Lemma only_logs_differ_refl (w : World) : only_logs_differ w w.
Proof. repeat split. Qed.

Lemma only_logs_differ_trans (w1 w2 w3 : World) :
  only_logs_differ w1 w2 -> only_logs_differ w2 w3 -> only_logs_differ w1 w3.
Proof.
  intros (A1 & A2 & A3 & A4 & A5) (B1 & B2 & B3 & B4 & B5).
  repeat split; congruence.
Qed.

Lemma only_logs_differ_logged (entry : LogEntry) (w : World) :
  only_logs_differ w (logged entry w).
Proof. repeat split. Qed.

(** What [loadState] returns is read off the fault and the row. *)
Lemma loadState_result (fault : StoreFault) (w : World) :
  fst (loadState fault w)
  = Returned match fault, whatsapp_auth w !! SESSION_ID with
             | NoFault, Some (Some state) => state
             | _, _ => EMPTY_STATE
             end.
Proof.
  unfold loadState, supabase_select_single.
  destruct fault as [|e|e]; run_M.
  - now destruct (whatsapp_auth w !! SESSION_ID) as [[state|]|].
  - cbv [error code]. now destruct (String.eqb _ "PGRST116").
  - reflexivity.
Qed.

Lemma loadState_only_logs (fault : StoreFault) (w : World) :
  only_logs_differ w (snd (loadState fault w)).
Proof.
  unfold loadState, supabase_select_single.
  destruct fault as [|e|e]; run_M.
  - destruct (whatsapp_auth w !! SESSION_ID) as [[state|]|];
      repeat split.
  - cbv [error code]. destruct (String.eqb _ "PGRST116"); repeat split.
  - repeat split.
Qed.

(** What [saveState] leaves in the table, and that it touches nothing
    else but the log. *)
Lemma saveState_effect (fault : StoreFault) (state : AuthState) (w : World) :
  let w' := snd (saveState fault state w) in
  whatsapp_auth w'
  = match fault with
    | NoFault => <[SESSION_ID := Some state]> (whatsapp_auth w)
    | _ => whatsapp_auth w
    end
  /\ sock w' = sock w /\ isConnected w' = isConnected w
  /\ timers w' = timers w /\ outbox w' = outbox w.
Proof.
  unfold saveState, supabase_upsert.
  destruct fault as [|e|e]; run_M; repeat split.
Qed.

Lemma truthy_js_or_object (v : JsVal) : truthy (js_or v EMPTY_OBJECT) = true.
Proof. unfold js_or. now destruct (truthy v) eqn:E. Qed.


Lemma useSupabaseAuthState_result (fault : StoreFault) (w : World) :
  exists state,
    fst (loadState fault w) = Returned state
    /\ useSupabaseAuthState fault w
       = (Returned {| creds := js_or (creds state) EMPTY_OBJECT;
                      keys := js_or (keys state) EMPTY_OBJECT |},
          snd (loadState fault w)).
Proof.
  pose proof (loadState_result fault w) as H.
  unfold useSupabaseAuthState. run_M.
  destruct (loadState fault w) as [[state|e] w']; cbn [fst] in H;
    [|discriminate].
  exists state. split; reflexivity.
Qed.

(** X5: whatever the store does, [useSupabaseAuthState] returns, and
    the [creds] and [keys] it hands to the transport library are never
    null or otherwise falsy (an empty object stands in); the process
    state is untouched but for log output. *)
Theorem useSupabaseAuthState_never_null (fault : StoreFault) (w : World) :
  exists state,
    fst (useSupabaseAuthState fault w) = Returned state
    /\ truthy (creds state) = true
    /\ truthy (keys state) = true
    /\ only_logs_differ w (snd (useSupabaseAuthState fault w)).
Proof.
  destruct (useSupabaseAuthState_result fault w) as (state & _ & ->).
  eexists. split; [reflexivity|]. cbn [fst snd creds keys].
  split; [apply truthy_js_or_object|].
  split; [apply truthy_js_or_object|apply loadState_only_logs].
Qed.



End StoreAdapterFacts.

(* ===================================================================== *)
(** * More on the connection manager *)
(* ===================================================================== *)

Section ConnectionManagerFacts.

Variable loggedOut : Z.

(** Everything a connection update does to the module-level state. *)
Lemma on_connection_update_effect (update : ConnectionUpdate) (w : World) :
  let r := on_connection_update loggedOut update w in
  fst r = Returned tt
  /\ sock (snd r) = sock w
  /\ outbox (snd r) = outbox w
  /\ whatsapp_auth (snd r) = whatsapp_auth w
  /\ isConnected (snd r)
     = (if strict_eq (connection update) (VStr "close") then
          if strict_eq (statusCode_of (lastDisconnect update)) (VNum loggedOut)
          then false else isConnected w
        else if strict_eq (connection update) (VStr "open") then true
        else isConnected w)
  /\ timers (snd r)
     = (if strict_eq (connection update) (VStr "close")
           && negb (strict_eq (statusCode_of (lastDisconnect update))
                      (VNum loggedOut))
        then timers w ++ [RECONNECT_TIMER]
        else timers w).
Proof.
  unfold on_connection_update.
  destruct (truthy (qr update));
    destruct (strict_eq (connection update) (VStr "close"));
    destruct (strict_eq (statusCode_of (lastDisconnect update))
                (VNum loggedOut));
    destruct (strict_eq (connection update) (VStr "open"));
    destruct (strict_eq (connection update) (VStr "connecting"));
    repeat split.
Qed.

(** X8: the [connection.update] handler never throws and never touches
    the socket, the transport or the store.  It sets the flag on
    "open", clears it on a logged-out "close" and leaves it alone on
    every other update (a pairing QR code, "connecting", an unknown
    value); it sets a timer on no update but a "close". *)
Theorem connection_update_frame (update : ConnectionUpdate) (w : World) :
  let r := on_connection_update loggedOut update w in
  fst r = Returned tt
  /\ sock (snd r) = sock w
  /\ outbox (snd r) = outbox w
  /\ whatsapp_auth (snd r) = whatsapp_auth w
  /\ (connection update = VStr "open" -> isConnected (snd r) = true)
  /\ (connection update <> VStr "open" ->
      connection update <> VStr "close" ->
      isConnected (snd r) = isConnected w)
  /\ (connection update <> VStr "close" -> timers (snd r) = timers w).
Proof.
  destruct (on_connection_update_effect update w)
    as (H1 & H2 & H3 & H4 & H5 & H6).
  cbv zeta in *.
  assert (Hstr : forall v s, strict_eq v (VStr s) = true <-> v = VStr s).
  { intros v s. destruct v; cbn; try (split; [discriminate|congruence]).
    rewrite String.eqb_eq. split; congruence. }
  repeat split; try assumption.
  - intros E. now rewrite H5, E.
  - intros Ho Hc. rewrite H5.
    destruct (strict_eq (connection update) (VStr "close")) eqn:E1;
      [now apply Hstr in E1|].
    destruct (strict_eq (connection update) (VStr "open")) eqn:E2;
      [now apply Hstr in E2|reflexivity].
  - intros Hc. rewrite H6.
    destruct (strict_eq (connection update) (VStr "close")) eqn:E1;
      [now apply Hstr in E1|reflexivity].
Qed.

End ConnectionManagerFacts.

Section ConnectFacts.

(** Everything [connectToWhatsApp] does to the module-level state. *)
Lemma connectToWhatsApp_effect (env : ConnectEnv) (w : World) :
  let r := connectToWhatsApp env w in
  fst r = Returned tt
  /\ isConnected (snd r) = isConnected w
  /\ outbox (snd r) = outbox w
  /\ whatsapp_auth (snd r) = whatsapp_auth w
  /\ match version_failure env, socket_failure env with
     | None, None =>
         timers (snd r) = timers w
         /\ exists state,
              sock (snd r)
              = Some {| sock_id := fresh_sock_id w; authState := state |}
              /\ truthy (creds state) = true
              /\ truthy (keys state) = true
     | _, _ =>
         timers (snd r) = timers w ++ [RETRY_TIMER]
         /\ sock (snd r) = sock w
     end.
Proof.
  unfold connectToWhatsApp.
  destruct (version_failure env) as [e|] eqn:Ev.
  { run_M. destruct (socket_failure env); repeat split. }
  destruct (useSupabaseAuthState_result (load_fault env) w)
    as (state & _ & Huse).
  pose proof (loadState_only_logs (load_fault env) w)
    as (L1 & L2 & L3 & L4 & L5).
  remember (snd (loadState (load_fault env) w)) as w1 eqn:Ew1.
  unfold try_catch, mbind, M_bind, may_fail, mret, M_ret.
  rewrite Huse.
  destruct (socket_failure env) as [e|] eqn:Es.
  - cbv [throw logger setTimeout fst snd]. cbn.
    repeat split; try assumption. now rewrite L3.
  - cbv [get_world set_sock fst snd]. cbn.
    repeat split; try assumption.
    exists {| creds := js_or (creds state) EMPTY_OBJECT;
              keys := js_or (keys state) EMPTY_OBJECT |}.
    unfold fresh_sock_id. rewrite L1.
    repeat split; apply truthy_js_or_object.
Qed.

(** X9: [connectToWhatsApp] never throws.  When fetching the protocol
    version or building the socket fails, it leaves the socket and the
    flag as they were and schedules exactly one retry, a call of itself
    after 10000 milliseconds. *)
Theorem connect_failure_schedules_retry (env : ConnectEnv) (w : World) :
  version_failure env <> None \/ socket_failure env <> None ->
  let r := connectToWhatsApp env w in
  fst r = Returned tt
  /\ timers (snd r) = timers w ++ [RETRY_TIMER]
  /\ sock (snd r) = sock w
  /\ isConnected (snd r) = isConnected w.
Proof.
  intros H.
  destruct (connectToWhatsApp_effect env w) as (H1 & H2 & _ & _ & H5).
  cbv zeta in *.
  destruct (version_failure env), (socket_failure env);
    try (destruct H5 as [H5 H6]; repeat split; assumption).
  destruct H as [H|H]; now destruct H.
Qed.

(** X10: a store outage does not stop a connection attempt.  When the
    version fetch and the socket construction succeed, then whatever the
    store does with the load, [connectToWhatsApp] replaces the socket by
    a new one built on truthy [creds] and [keys] and sets no timer; the
    Connected-state flag keeps its old value. *)
Theorem connect_survives_store_fault (env : ConnectEnv) (w : World) :
  version_failure env = None ->
  socket_failure env = None ->
  let r := connectToWhatsApp env w in
  fst r = Returned tt
  /\ timers (snd r) = timers w
  /\ isConnected (snd r) = isConnected w
  /\ exists state,
       sock (snd r) = Some {| sock_id := fresh_sock_id w; authState := state |}
       /\ truthy (creds state) = true
       /\ truthy (keys state) = true.
Proof.
  intros Hv Hs.
  destruct (connectToWhatsApp_effect env w) as (H1 & H2 & _ & _ & H5).
  cbv zeta in *. rewrite Hv, Hs in H5. destruct H5 as [H5 H6].
  repeat split; assumption.
Qed.

End ConnectFacts.

(* ===================================================================== *)
(** * The send and the handlers, before and after the delay *)
(* ===================================================================== *)

Section Cut.

Lemma send_begin_closed (number : JsVal) (d : Draw) (w : World) :
  isConnected w = false \/ sock w = None ->
  send_begin number d w = (Threw NOT_CONNECTED, w).
Proof.
  intros H. unfold send_begin. run_M.
  destruct H as [H|H]; rewrite H; [reflexivity|].
  now destruct (isConnected w).
Qed.

Lemma send_begin_open (number : JsVal) (d : Draw) (w : World) (s : Sock) :
  isConnected w = true ->
  sock w = Some s ->
  match number with
  | VStr n =>
      send_begin number d w
      = (Returned (formatPhoneNumber n),
         snd (setTimeout ResolveDelay
                (randomDelay_ms DEFAULT_MIN_DELAY DEFAULT_MAX_DELAY d) w))
  | _ => exists e, send_begin number d w = (Threw e, w)
  end.
Proof.
  intros Hc Hs.
  destruct number; try eexists;
    unfold send_begin, formatPhoneNumber_of;
    cbv [mbind M_bind mret M_ret throw get_world]; rewrite Hc, Hs;
    reflexivity.
Qed.

Lemma send_resume_effect
  (formattedNumber : string) (number : JsVal) (msg : string)
  (failure : option JsError) (w : World) (s : Sock) :
  sock w = Some s ->
  let r := send_resume formattedNumber number msg failure w in
  fst r = match failure with
          | Some e => Threw e
          | None => Returned tt
          end
  /\ outbox (snd r)
     = outbox w ++ [{| via := sock_id s; jid := formattedNumber; text := msg |}]
  /\ logs (snd r)
     = match failure with
       | Some _ => logs w
       | None => logs w ++ [LoggerInfo ("📤 Message sent to "
                                         +:+ to_template_string number) []]
       end
  /\ sock (snd r) = sock w /\ isConnected (snd r) = isConnected w
  /\ timers (snd r) = timers w /\ whatsapp_auth (snd r) = whatsapp_auth w.
Proof.
  intros Hs r. subst r. unfold send_resume. run_M. rewrite Hs.
  destruct failure; cbv beta iota; repeat split; assumption.
Qed.

(** The send is its two halves in sequence. *)
Lemma sendWhatsAppMessage_cut
  (number : JsVal) (msg : string) (env : SendEnv) (w : World) :
  sendWhatsAppMessage number msg env w
  = (formattedNumber ← send_begin number (draw env);
     send_resume formattedNumber number msg (transport_failure env)) w.
Proof.
  unfold sendWhatsAppMessage, send_begin, send_resume, formatPhoneNumber_of.
  run_M.
  destruct (negb (isConnected w) || is_null (sock w)); [reflexivity|].
  destruct number; reflexivity.
Qed.

(** Each handler of the server is its two halves in sequence. *)
Lemma handler_of_cut (ep : Endpoint) (req : Request) (env : SendEnv) (w : World) :
  handler_of ep req env w = handler_uninterrupted ep req env w.
Proof.
  unfold handler_uninterrupted, handler_begin, handler_resume, handler_of.
  destruct ep; unfold send_otp_handler, notify_billing_handler, prepare.
  - destruct (negb (truthy (body_field req "number"))
              || negb (truthy (body_field req "code"))); [reflexivity|].
    unfold try_catch at 1 3. unfold mbind at 1 5. unfold M_bind at 1 5.
    rewrite sendWhatsAppMessage_cut.
    unfold try_catch, mbind, M_bind, mret, M_ret, on_handler_error.
    destruct (send_begin (body_field req "number") (draw env) w)
      as [[a|e] w1]; [|reflexivity].
    cbn [endpoint to address body_text type_echo].
    now destruct (send_resume a (body_field req "number") _ _ w1)
      as [[[]|e] w2].
  - destruct (negb (truthy (body_field req "number"))
              || negb (truthy (body_field req "type"))
              || negb (truthy (body_field req "service"))
              || negb (truthy (body_field req "value"))
              || negb (truthy (body_field req "pixKey"))); [reflexivity|].
    destruct (billing_message _ _ _ _) as [msg|]; [|reflexivity].
    unfold try_catch at 1 3. unfold mbind at 1 5. unfold M_bind at 1 5.
    rewrite sendWhatsAppMessage_cut.
    unfold try_catch, mbind, M_bind, mret, M_ret, on_handler_error.
    destruct (send_begin (body_field req "number") (draw env) w)
      as [[a|e] w1]; [|reflexivity].
    cbn [endpoint to address body_text type_echo].
    now destruct (send_resume a (body_field req "number") _ _ w1)
      as [[[]|e] w2].
Qed.

End Cut.

(* ===================================================================== *)
(** * More on the deliver-text operation and the routes *)
(* ===================================================================== *)

Section HandlerFacts.

(** The responses a handler gives before any send are client errors. *)
Lemma prepare_rejects (ep : Endpoint) (req : Request) (response : Response) :
  prepare ep req = inl response -> status response = 400.
Proof.
  unfold prepare. destruct ep.
  - destruct (_ || _); [intros [= <-]; reflexivity|discriminate].
  - destruct (_ || _); [intros [= <-]; reflexivity|].
    destruct (billing_message _ _ _ _);
      [discriminate|intros [= <-]; reflexivity].
Qed.

(** What a handler does up to its delay. *)
Lemma handler_begin_effect (ep : Endpoint) (req : Request) (d : Draw) (w : World) :
  exists out w',
    handler_begin ep req d w = (Returned out, w')
    /\ sock w' = sock w /\ isConnected w' = isConnected w
    /\ outbox w' = outbox w /\ whatsapp_auth w' = whatsapp_auth w
    /\ match out with
       | inl response =>
           timers w' = timers w
           /\ (status response = 400 \/ status response = 500)
           /\ (status response = 400 -> w' = w)
       | inr h =>
           timers w' = timers w ++ [delay_timer d]
           /\ logs w' = logs w
           /\ isConnected w = true /\ sock w <> None
           /\ endpoint h = ep
           /\ exists n, to h = VStr n /\ address h = formatPhoneNumber n
                        /\ prepare ep req = inr (VStr n, body_text h, type_echo h)
       end.
Proof.
  unfold handler_begin.
  destruct (prepare ep req) as [response|[[number msg] type]] eqn:Ep.
  - exists (inl response), w. apply prepare_rejects in Ep.
    repeat split. now left.
  - destruct (isConnected w) eqn:Hc; [destruct (sock w) as [s|] eqn:Hs|].
    + pose proof (send_begin_open number d w s Hc Hs) as Hb.
      unfold try_catch, mbind, M_bind.
      destruct number as [| |b|z|n|r].
      5: { rewrite Hb. eexists (inr _), _. split; [reflexivity|].
           cbn [endpoint to address body_text type_echo].
           repeat split; try assumption; try congruence. eauto. }
      all: destruct Hb as [e Hb]; rewrite Hb;
        exists (inl (error_response e)), (logged (error_log ep e) w);
        repeat split; try assumption; try (now right); discriminate.
    + unfold try_catch, mbind, M_bind.
      rewrite (send_begin_closed number d w (or_intror Hs)).
      exists (inl (error_response NOT_CONNECTED)),
        (logged (error_log ep NOT_CONNECTED) w).
      repeat split; try assumption; try (now right); discriminate.
    + unfold try_catch, mbind, M_bind.
      rewrite (send_begin_closed number d w (or_introl Hc)).
      exists (inl (error_response NOT_CONNECTED)),
        (logged (error_log ep NOT_CONNECTED) w).
      repeat split; try assumption; try (now right); discriminate.
Qed.

(** What a handler does once its delay is over. *)
Lemma handler_resume_effect
  (h : Suspended) (failure : option JsError) (w : World) (s : Sock) :
  sock w = Some s ->
  exists response w',
    handler_resume h failure w = (Returned response, w')
    /\ outbox w' = outbox w ++ [message_of s h]
    /\ sock w' = sock w /\ isConnected w' = isConnected w
    /\ timers w' = timers w /\ whatsapp_auth w' = whatsapp_auth w
    /\ (status response = 200 \/ status response = 500)
    /\ match failure with
       | Some e =>
           response = error_response e
           /\ logs w' = logs w ++ [error_log (endpoint h) e]
       | None =>
           forall n, to h = VStr n ->
             response = success_response (endpoint h) (type_echo h)
                          (formatPhoneNumber n)
       end.
Proof.
  intros Hs. unfold handler_resume.
  pose proof (send_resume_effect (address h) (to h) (body_text h) failure w s Hs)
    as (R1 & R2 & R3 & R4 & R5 & R6 & R7).
  cbv zeta in *. unfold try_catch, mbind, M_bind.
  destruct (send_resume (address h) (to h) (body_text h) failure w)
    as [[[]|e] w1]; cbn [fst snd] in *.
  - destruct failure; [discriminate|].
    unfold formatPhoneNumber_of.
    destruct (to h) eqn:Eto; run_M;
      (eexists _, _; split; [reflexivity|]);
      repeat split; try assumption; try (now right); try discriminate.
    + left. now destruct (endpoint h).
    + intros n [= <-]. reflexivity.
  - destruct failure as [e'|]; [|discriminate]. injection R1 as <-.
    exists (error_response e), (logged (error_log (endpoint h) e) w1).
    repeat split; try assumption; [now right|].
    unfold logged. cbn. now rewrite R3.
Qed.

(** X11: a request the middleware turns away answers 401 and changes
    nothing: no handler runs for a request whose [x-api-key] header is
    absent, is not the configured key, or is empty; every other request
    is handed to the handler as it is. *)
Theorem unauthorized_request_has_no_effect
  (API_KEY : string) (handler : Request -> SendEnv -> M Response)
  (req : Request) (env : SendEnv) (w : World) :
  (headers req !! "x-api-key" <> Some API_KEY \/ API_KEY = "" ->
   route API_KEY handler req env w = (Returned UNAUTHORIZED, w))
  /\ (headers req !! "x-api-key" = Some API_KEY -> API_KEY <> "" ->
      route API_KEY handler req env w = handler req env w).
Proof.
  unfold route, validateApiKey. split.
  - intros H. destruct (headers req !! "x-api-key") as [k|]; [|reflexivity].
    destruct (String.eqb_spec k "") as [->|Hk]; [reflexivity|].
    destruct (String.eqb_spec k API_KEY) as [->|]; [|reflexivity].
    destruct H as [H|H]; congruence.
  - intros -> Hne. apply String.eqb_neq in Hne. rewrite Hne.
    now rewrite String.eqb_refl.
Qed.



(** X14: a send the transport rejects is not retried.  The handler
    answers 500 with the transport's own error text, having called the
    transport exactly once and logged the error. *)
Theorem handler_transport_failure
  (ep : Endpoint) (req : Request) (env : SendEnv) (w : World) (s : Sock)
  (n msg : string) (type : JsVal) (e : JsError) :
  prepare ep req = inr (VStr n, msg, type) ->
  isConnected w = true ->
  sock w = Some s ->
  transport_failure env = Some e ->
  exists w',
    handler_of ep req env w = (Returned (error_response e), w')
    /\ outbox w'
       = outbox w ++ [{| via := sock_id s; jid := formatPhoneNumber n;
                         text := msg |}]
    /\ logs w' = logs w ++ [error_log ep e].
Proof.
  intros Hp Hc Hs Hf. rewrite handler_of_cut.
  unfold handler_uninterrupted, handler_begin. rewrite Hp.
  pose proof (send_begin_open (VStr n) (draw env) w s Hc Hs) as Ho.
  cbv beta iota in Ho. unfold try_catch at 1. unfold mbind, M_bind.
  rewrite Ho.
  assert (Hs1 : sock (snd (setTimeout ResolveDelay
                  (randomDelay_ms DEFAULT_MIN_DELAY DEFAULT_MAX_DELAY (draw env))
                  w)) = Some s) by exact Hs.
  destruct (handler_resume_effect
              {| endpoint := ep; to := VStr n; address := formatPhoneNumber n;
                 body_text := msg; type_echo := type |}
              (transport_failure env) _ s Hs1)
    as (response & w' & Hr & R1 & _ & _ & _ & _ & _ & R7).
  rewrite Hf in R7. destruct R7 as [-> R8].
  exists w'. split; [exact Hr|]. split; [exact R1|exact R8].
Qed.

(** X15: a number that is truthy but not a string (a JSON number, an
    array, an object, [true]) passes the validation and then fails in
    [formatPhoneNumber]: with the session open the handler answers 500,
    writes one error log entry, and neither waits nor calls the
    transport. *)
Theorem handler_number_not_a_string
  (ep : Endpoint) (req : Request) (env : SendEnv) (w : World) (s : Sock)
  (number : JsVal) (msg : string) (type : JsVal) :
  prepare ep req = inr (number, msg, type) ->
  (forall n, number <> VStr n) ->
  isConnected w = true ->
  sock w = Some s ->
  exists e,
    handler_of ep req env w
    = (Returned (error_response e), logged (error_log ep e) w).
Proof.
  intros Hp Hn Hc Hs. rewrite handler_of_cut.
  unfold handler_uninterrupted, handler_begin. rewrite Hp.
  pose proof (send_begin_open number (draw env) w s Hc Hs) as Ho.
  destruct number; try (now destruct (Hn s0));
    destruct Ho as [e Ho]; exists e;
    unfold try_catch, mbind, M_bind; now rewrite Ho.
Qed.

End HandlerFacts.

Section TemplateFacts.
Import JsString.


Lemma includes_skip (a t s : string) :
  includes t s = true -> includes (a +:+ t) s = true.
Proof.
  intros H. induction a as [|c a IH]; [exact H|].
  change (String c a +:+ t) with (String c (a +:+ t)). cbn [includes].
  destruct (startsWith (String c (a +:+ t)) s); [reflexivity|exact IH].
Qed.

Lemma includes_in_left (a b s : string) :
  includes a s = true -> includes (a +:+ b) s = true.
Proof.
  induction a as [|c a IH].
  - cbn [includes]. destruct s as [|c s]; [|discriminate]. intros _.
    destruct b; reflexivity.
  - change (String c a +:+ b) with (String c (a +:+ b)). cbn [includes].
    destruct (startsWith (String c a) s) eqn:E.
    + intros _.
      change (String c (a +:+ b)) with (String c a +:+ b).
      now rewrite (startsWith_app_l _ b _ E).
    + intros H. destruct (startsWith (String c (a +:+ b)) s); auto.
Qed.





End TemplateFacts.

Section OutcomeFacts.

Lemma normalized_formatPhoneNumber (x : string) :
  normalized_address (formatPhoneNumber x) = true.
Proof.
  unfold normalized_address.
  destruct (formatPhoneNumber_shape x) as (body & -> & _ & H55).
  now rewrite (startsWith_app_l _ _ _ H55), endsWith_app.
Qed.

(** X18: the handlers of both POST routes never throw, and their
    answer tells what they did.  The status is 200, 400 or 500; a 400
    left the process untouched; a 200 was preceded by exactly one call
    of the transport, to a normalized address.  No handler changes the
    socket, the flag or the store. *)
Theorem handler_outcomes
  (ep : Endpoint) (req : Request) (env : SendEnv) (w : World) :
  exists response w',
    handler_of ep req env w = (Returned response, w')
    /\ (status response = 200 \/ status response = 400
        \/ status response = 500)
    /\ (status response = 400 -> w' = w)
    /\ (status response = 200 ->
        exists m, outbox w' = outbox w ++ [m]
                  /\ normalized_address (jid m) = true)
    /\ sock w' = sock w /\ isConnected w' = isConnected w
    /\ whatsapp_auth w' = whatsapp_auth w.
Proof.
  rewrite handler_of_cut. unfold handler_uninterrupted.
  destruct (handler_begin_effect ep req (draw env) w)
    as (out & w1 & Hb & B1 & B2 & B3 & B4 & B5).
  unfold mbind, M_bind. rewrite Hb.
  destruct out as [response|h].
  - destruct B5 as (_ & Hst & H400).
    exists response, w1. split; [reflexivity|].
    repeat split; try assumption.
    + destruct Hst; auto.
    + intros H200. destruct Hst; congruence.
  - destruct B5 as (_ & _ & _ & Hsock & _ & n & Hto & Haddr & _).
    destruct (sock w1) as [s|] eqn:Hs1; [|congruence].
    destruct (handler_resume_effect h (transport_failure env) w1 s Hs1)
      as (response & w2 & Hr & R1 & R2 & R3 & _ & R5 & Hst & _).
    exists response, w2. split; [exact Hr|].
    repeat split; try congruence.
    + destruct Hst; auto.
    + intros H400. destruct Hst; congruence.
    + intros _. exists (message_of s h). split; [congruence|].
      cbn [message_of jid]. rewrite Haddr.
      apply normalized_formatPhoneNumber.
Qed.

End OutcomeFacts.

Section GateFacts.

Variable loggedOut : Z.

(** X19: the gate of the send follows the lifecycle events.  After a
    logged-out close every send throws "WhatsApp not connected" and
    changes nothing, whatever the state was before; after an "open" on
    an existing socket a send to a string number calls the transport
    once. *)
Theorem gate_follows_lifecycle
  (update : ConnectionUpdate) (w : World)
  (number : JsVal) (n msg : string) (env : SendEnv) :
  let w' := snd (on_connection_update loggedOut update w) in
  (connection update = VStr "close" ->
   statusCode_of (lastDisconnect update) = VNum loggedOut ->
   sendWhatsAppMessage number msg env w' = (Threw NOT_CONNECTED, w'))
  /\ (connection update = VStr "open" ->
      forall s, sock w = Some s ->
      outbox (snd (sendWhatsAppMessage (VStr n) msg env w'))
      = outbox w ++ [{| via := sock_id s; jid := formatPhoneNumber n;
                        text := msg |}]).
Proof.
  destruct (on_connection_update_effect loggedOut update w)
    as (_ & E2 & E3 & _ & E5 & _).
  cbv zeta in *. split.
  - intros Hc Hl. rewrite Hc, Hl in E5. cbn in E5.
    rewrite Z.eqb_refl in E5.
    rewrite sendWhatsAppMessage_cut. unfold mbind, M_bind.
    now rewrite (send_begin_closed number (draw env) _ (or_introl E5)).
  - intros Hc s Hs. rewrite Hc in E5. cbn in E5.
    rewrite <- E3.
    apply send_when_connected; [exact E5|congruence|reflexivity].
Qed.

End GateFacts.

(* ===================================================================== *)
(** * The process over any sequence of events *)
(* ===================================================================== *)

Section ProcessFacts.

Variable loggedOut : Z.
Variable API_KEY : string.
Variable PORT : JsVal.

Local Abbreviation step_event := (step loggedOut API_KEY PORT).
Local Abbreviation run_events := (run loggedOut API_KEY PORT).

Lemma run_app (events1 events2 : list Event) (p : Process) :
  run_events (events1 ++ events2) p = run_events events2 (run_events events1 p).
Proof. apply fold_left_app. Qed.

Lemma delay_count_app (ts : list Timer) (t : Timer) :
  length (List.filter is_delay_timer (ts ++ [t]))
  = (length (List.filter is_delay_timer ts)
     + if is_delay_timer t then 1 else 0)%nat.
Proof.
  rewrite List.filter_app, List.length_app. cbn.
  now destruct (is_delay_timer t).
Qed.

(** [on_listening] is [connectToWhatsApp] after three log lines. *)
Lemma on_listening_effect (env : ConnectEnv) (w : World) :
  exists w0,
    only_logs_differ w w0
    /\ fresh_sock_id w0 = fresh_sock_id w
    /\ on_listening PORT env w = connectToWhatsApp env w0.
Proof.
  eexists. split; [|split; [|reflexivity]]; [repeat split|reflexivity].
Qed.

(** An attempt to connect keeps the invariant. *)
Lemma connect_keeps_invariant
  (table : gmap string (option AuthState)) (env : ConnectEnv)
  (w0 : World) (p : Process) :
  only_logs_differ (world p) w0 ->
  process_invariant table p ->
  process_invariant table
    {| world := snd (connectToWhatsApp env w0); suspended := suspended p |}.
Proof.
  intros (L1 & L2 & L3 & L4 & L5) (I1 & I2 & I3 & I4 & I5).
  destruct (connectToWhatsApp_effect env w0) as (_ & C2 & C3 & C4 & C5).
  cbv zeta in *. unfold process_invariant. cbn [world suspended].
  rewrite C2, C3, C4, L2, L4, L5.
  split; [|split; [|split; [|split]]]; try assumption.
  - intros H. specialize (I1 H).
    destruct (version_failure env), (socket_failure env);
      try (destruct C5 as [_ ->]; congruence).
    destruct C5 as (_ & state & -> & _). discriminate.
  - destruct (version_failure env), (socket_failure env);
      destruct C5 as [-> _]; rewrite ?delay_count_app, L3; cbn; lia.
Qed.

(** Every event keeps the invariant. *)
Lemma step_keeps_invariant
  (table : gmap string (option AuthState)) (p : Process) (e : Event) :
  process_invariant table p -> process_invariant table (step_event p e).
Proof.
  intros Hinv. destruct e as [env|env|update|fault|ts|ep req d|i failure];
    unfold step.
  - destruct (on_listening_effect env (world p)) as (w0 & L & _ & E).
    unfold after. rewrite E. now apply connect_keeps_invariant.
  - destruct (existsb _ _); [|exact Hinv].
    unfold after. apply connect_keeps_invariant;
      [apply only_logs_differ_refl|exact Hinv].
  - destruct (sock (world p)) as [s|] eqn:Hs; [|exact Hinv].
    cbn [is_null]. unfold after.
    destruct Hinv as (I1 & I2 & I3 & I4 & I5).
    destruct (on_connection_update_effect loggedOut update (world p))
      as (_ & E2 & E3 & E4 & _ & E6).
    cbv zeta in *. unfold process_invariant. cbn [world suspended].
    rewrite E2, E3, E4, Hs.
    split; [|split; [|split; [|split]]]; try assumption.
    + discriminate.
    + rewrite E6. destruct (_ && _); rewrite ?delay_count_app; cbn; lia.
  - destruct (sock (world p)) as [s|] eqn:Hs; [|exact Hinv].
    cbn [is_null]. unfold after.
    destruct Hinv as (I1 & I2 & I3 & I4 & I5).
    unfold saveCreds. unfold mbind at 1. unfold M_bind at 1.
    cbv [get_world]. rewrite Hs.
    destruct (saveState_effect fault
                {| creds := creds (authState s); keys := keys (authState s) |}
                (world p)) as (S1 & S2 & S3 & S4 & S5).
    cbv zeta in *. unfold process_invariant. cbn [world suspended].
    rewrite S1, S2, S3, S4, S5, Hs.
    split; [|split; [|split; [|split]]]; try assumption.
    + discriminate.
    + intros key Hkey. destruct fault; try (now apply I5).
      rewrite lookup_insert_ne by congruence. now apply I5.
  - exact Hinv.
  - destruct (validateApiKey API_KEY req); [exact Hinv|].
    destruct Hinv as (I1 & I2 & I3 & I4 & I5).
    destruct (handler_begin_effect ep req d (world p))
      as (out & w1 & Hb & B1 & B2 & B3 & B4 & B5).
    rewrite Hb. unfold process_invariant.
    destruct out as [response|h]; cbn [world suspended];
      rewrite B1, B2, B3, B4.
    + destruct B5 as (-> & _).
      split; [|split; [|split; [|split]]]; assumption.
    + destruct B5 as (-> & _ & _ & Hsock & _ & n & _ & Haddr & _).
      split; [|split; [|split; [|split]]]; try assumption.
      * intros _. exact Hsock.
      * apply Forall_app. split; [assumption|].
        constructor; [|constructor]. rewrite Haddr.
        apply normalized_formatPhoneNumber.
      * rewrite delay_count_app, List.length_app. cbn. lia.
  - destruct (suspended p !! i) as [h|] eqn:Hi; [|exact Hinv].
    destruct Hinv as (I1 & I2 & I3 & I4 & I5).
    assert (Hne : suspended p <> []).
    { intros E. rewrite E in Hi. discriminate. }
    destruct (sock (world p)) as [s|] eqn:Hs; [|now destruct I1; auto].
    destruct (handler_resume_effect h failure (world p) s Hs)
      as (response & w1 & Hr & R1 & R2 & R3 & R4 & R5 & _).
    rewrite Hr. unfold process_invariant. cbn [world suspended snd].
    rewrite R1, R2, R3, R4, R5, Hs.
    split; [|split; [|split; [|split]]]; try assumption.
    + discriminate.
    + apply Forall_app. split; [assumption|].
      constructor; [|constructor]. cbn [message_of jid].
      exact (Forall_lookup_1 _ _ _ _ I3 Hi).
    + now apply Forall_delete.
    + rewrite List.length_app, length_delete by eauto. cbn.
      apply lookup_lt_Some in Hi. lia.
Qed.

Lemma boot_invariant (table : gmap string (option AuthState)) :
  process_invariant table (boot table).
Proof.
  unfold process_invariant, boot. cbn.
  split; [|split; [|split; [|split]]]; try constructor; try reflexivity.
  intros [H|H]; [discriminate|congruence].
Qed.

Lemma run_keeps_invariant
  (table : gmap string (option AuthState)) (events : list Event) (p : Process) :
  process_invariant table p -> process_invariant table (run_events events p).
Proof.
  revert p. induction events as [|e events IH]; intros p Hinv; [exact Hinv|].
  apply IH. now apply step_keeps_invariant.
Qed.

End ProcessFacts.

Section ProcessProperties.

Variable loggedOut : Z.
Variable API_KEY : string.
Variable PORT : JsVal.

Local Abbreviation step_event := (step loggedOut API_KEY PORT).
Local Abbreviation run_events := (run loggedOut API_KEY PORT).

Lemma delay_timer_in_range (d : Draw) :
  in_unit_interval d = true -> timer_in_range (delay_timer d) = true.
Proof.
  intros H. unfold timer_in_range, delay_timer, randomDelay_ms,
    DEFAULT_MIN_DELAY, DEFAULT_MAX_DELAY. cbn [callback delay].
  pose proof (floor_of_scaled_draw_below d (3000 - 1000 + 1) H ltac:(lia)).
  apply andb_true_intro. split; [apply Z.leb_le|apply Z.leb_le]; lia.
Qed.

Lemma step_keeps_timers_in_range (p : Process) (e : Event) :
  draw_in_range e = true ->
  Forall (fun t => timer_in_range t = true) (timers (world p)) ->
  Forall (fun t => timer_in_range t = true) (timers (world (step_event p e))).
Proof.
  intros Hd Ht. destruct e as [env|env|update|fault|ts|ep req d|i failure];
    unfold step.
  - destruct (on_listening_effect PORT env (world p))
      as (w0 & (_ & _ & L3 & _) & _ & E).
    unfold after. rewrite E. cbn [world].
    destruct (connectToWhatsApp_effect env w0) as (_ & _ & _ & _ & C5).
    cbv zeta in C5.
    destruct (version_failure env), (socket_failure env);
      destruct C5 as [-> _]; rewrite L3; try assumption;
      (apply Forall_app; split; [assumption|repeat constructor]).
  - destruct (existsb _ _); [|exact Ht]. unfold after. cbn [world].
    destruct (connectToWhatsApp_effect env (world p))
      as (_ & _ & _ & _ & C5).
    cbv zeta in C5.
    destruct (version_failure env), (socket_failure env);
      destruct C5 as [-> _]; try assumption;
      (apply Forall_app; split; [assumption|repeat constructor]).
  - destruct (is_null _); [exact Ht|]. unfold after. cbn [world].
    destruct (on_connection_update_effect loggedOut update (world p))
      as (_ & _ & _ & _ & _ & E6).
    cbv zeta in E6. rewrite E6.
    destruct (_ && _); [|exact Ht].
    apply Forall_app; split; [assumption|repeat constructor].
  - destruct (sock (world p)) as [s|] eqn:Hs; [|exact Ht].
    cbn [is_null]. unfold after, saveCreds.
    unfold mbind at 1. unfold M_bind at 1. cbv [get_world]. rewrite Hs.
    cbn [world].
    destruct (saveState_effect fault
                {| creds := creds (authState s); keys := keys (authState s) |}
                (world p)) as (_ & _ & _ & S4 & _).
    cbv zeta in S4. now rewrite S4.
  - exact Ht.
  - destruct (validateApiKey API_KEY req); [exact Ht|].
    destruct (handler_begin_effect ep req d (world p))
      as (out & w1 & Hb & _ & _ & _ & _ & B5).
    rewrite Hb. destruct out as [response|h]; cbn [world].
    + destruct B5 as (-> & _). exact Ht.
    + destruct B5 as (-> & _).
      apply Forall_app; split; [assumption|].
      constructor; [|constructor]. now apply delay_timer_in_range.
  - destruct (suspended p !! i) as [h|] eqn:Hi; [|exact Ht].
    cbn [world].
    destruct (sock (world p)) as [s|] eqn:Hs.
    + destruct (handler_resume_effect h failure (world p) s Hs)
        as (response & w1 & Hr & _ & _ & _ & R4 & _).
      rewrite Hr. cbn [snd]. now rewrite R4.
    + unfold handler_resume, send_resume. run_M. rewrite Hs. exact Ht.
Qed.

Lemma step_without_open (p : Process) (e : Event) :
  is_open_event e = false ->
  isConnected (world p) = false ->
  suspended p = [] ->
  isConnected (world (step_event p e)) = false
  /\ suspended (step_event p e) = []
  /\ outbox (world (step_event p e)) = outbox (world p).
Proof.
  intros Ho Hc Hs. destruct e as [env|env|update|fault|ts|ep req d|i failure];
    unfold step.
  - destruct (on_listening_effect PORT env (world p))
      as (w0 & (_ & L2 & _ & L4 & _) & _ & E).
    unfold after. rewrite E. cbn [world suspended].
    destruct (connectToWhatsApp_effect env w0) as (_ & C2 & C3 & _).
    cbv zeta in *. repeat split; congruence.
  - destruct (existsb _ _); [|auto]. unfold after. cbn [world suspended].
    destruct (connectToWhatsApp_effect env (world p)) as (_ & C2 & C3 & _).
    cbv zeta in *. repeat split; congruence.
  - destruct (is_null _); [auto|]. unfold after. cbn [world suspended].
    destruct (on_connection_update_effect loggedOut update (world p))
      as (_ & _ & E3 & _ & E5 & _).
    cbv zeta in *. cbn [is_open_event] in Ho.
    rewrite E5, Ho, Hc. repeat split; try assumption.
    destruct (strict_eq (connection update) (VStr "close")); [|reflexivity].
    now destruct (strict_eq (statusCode_of _) _).
  - destruct (sock (world p)) as [s|] eqn:Hk; [|auto].
    cbn [is_null]. unfold after, saveCreds.
    unfold mbind, M_bind. cbv [get_world].
    rewrite Hk. cbn [world suspended].
    destruct (saveState_effect fault
                {| creds := creds (authState s); keys := keys (authState s) |}
                (world p)) as (_ & _ & S3 & _ & S5).
    cbv zeta in *. repeat split; congruence.
  - auto.
  - destruct (validateApiKey API_KEY req); [auto|].
    destruct (handler_begin_effect ep req d (world p))
      as (out & w1 & Hb & _ & B2 & B3 & _ & B5).
    rewrite Hb. destruct out as [response|h]; cbn [world suspended].
    + repeat split; congruence.
    + destruct B5 as (_ & _ & Hc' & _). congruence.
  - rewrite Hs. cbn. auto.
Qed.

(** X20: after any sequence of events, a set Connected-state flag comes
    with a socket, so that the second half of the send's gate
    ([!sock]) never decides; and a handler only ever waits for its
    delay while a socket exists. *)
Theorem flag_implies_socket
  (table : gmap string (option AuthState)) (events : list Event) :
  let p := run_events events (boot table) in
  isConnected (world p) = true \/ suspended p <> [] ->
  sock (world p) <> None.
Proof.
  exact (proj1 (run_keeps_invariant loggedOut API_KEY PORT table events _
                  (boot_invariant table))).
Qed.

(** X21: after any sequence of events, every address the transport was
    called with, and every address a waiting handler will call it with,
    begins with 55 and ends with @s.whatsapp.net. *)
Theorem every_address_normalized
  (table : gmap string (option AuthState)) (events : list Event) :
  let p := run_events events (boot table) in
  Forall (fun m => normalized_address (jid m) = true) (outbox (world p))
  /\ Forall (fun h => normalized_address (address h) = true) (suspended p).
Proof.
  destruct (run_keeps_invariant loggedOut API_KEY PORT table events _
              (boot_invariant table)) as (_ & H2 & H3 & _).
  now split.
Qed.

(** X22: after any sequence of events, the delay timers set so far are
    as many as the calls of the transport plus the handlers still
    waiting: no message goes out without its delay, and no delay is set
    without a send that follows. *)
Theorem every_send_has_its_delay
  (table : gmap string (option AuthState)) (events : list Event) :
  let p := run_events events (boot table) in
  (length (outbox (world p)) + length (suspended p)
   = length (List.filter is_delay_timer (timers (world p))))%nat.
Proof.
  exact (proj1 (proj2 (proj2 (proj2
           (run_keeps_invariant loggedOut API_KEY PORT table events _
              (boot_invariant table)))))).
Qed.

(** X23: the process writes no row of the table but the one of its
    session identifier: after any sequence of events every other row is
    as it was at start. *)
Theorem only_the_session_row_is_written
  (table : gmap string (option AuthState)) (events : list Event)
  (key : string) :
  key <> SESSION_ID ->
  whatsapp_auth (world (run_events events (boot table))) !! key = table !! key.
Proof.
  exact (proj2 (proj2 (proj2 (proj2
           (run_keeps_invariant loggedOut API_KEY PORT table events _
              (boot_invariant table))))) key).
Qed.

(** X24: when every draw of [Math.random] is in [[0, 1)], every timer
    the process ever sets is a reconnect after 5000 or 10000
    milliseconds, or a delay of 1000 to 3000 milliseconds. *)
Theorem every_timer_in_range
  (table : gmap string (option AuthState)) (events : list Event) :
  forallb draw_in_range events = true ->
  Forall (fun t => timer_in_range t = true)
    (timers (world (run_events events (boot table)))).
Proof.
  assert (H : forall p,
             forallb draw_in_range events = true ->
             Forall (fun t => timer_in_range t = true) (timers (world p)) ->
             Forall (fun t => timer_in_range t = true)
               (timers (world (run_events events p)))).
  { induction events as [|e events IH]; intros p Hd Ht; [exact Ht|].
    cbn in Hd. apply andb_prop in Hd as [Hd1 Hd2].
    apply IH; [exact Hd2|]. now apply step_keeps_timers_in_range. }
  intros Hd. apply H; [exact Hd|constructor].
Qed.

(** X25: nothing is sent before the session has opened.  From a state
    with the flag false and no handler waiting, a sequence of events
    without an "open" update leaves the flag false and calls the
    transport not once, whatever requests arrive. *)
Theorem no_send_before_open (events : list Event) (p : Process) :
  isConnected (world p) = false ->
  suspended p = [] ->
  forallb (fun e => negb (is_open_event e)) events = true ->
  isConnected (world (run_events events p)) = false
  /\ outbox (world (run_events events p)) = outbox (world p).
Proof.
  revert p. induction events as [|e events IH]; intros p Hc Hs Ho;
    [now split|].
  cbn in Ho. apply andb_prop in Ho as [Ho1 Ho2].
  apply negb_true_iff in Ho1.
  destruct (step_without_open p e Ho1 Hc Hs) as (S1 & S2 & S3).
  destruct (IH (step_event p e) S1 S2 Ho2) as [I1 I2].
  split; [exact I1|].
  change (run loggedOut API_KEY PORT (e :: events) p)
    with (run_events events (step_event p e)).
  now rewrite I2.
Qed.

(** X26: the gate is not checked again after the delay.  After any
    sequence of events, when the delay of a waiting handler ends the
    transport is called exactly once with that handler's address and
    message, on the socket that is current then, whether or not the flag
    is still set. *)
Theorem waiting_send_is_made
  (table : gmap string (option AuthState)) (events : list Event)
  (i : nat) (h : Suspended) (failure : option JsError) :
  let p := run_events events (boot table) in
  suspended p !! i = Some h ->
  exists s,
    sock (world p) = Some s
    /\ outbox (world (step_event p (DelayElapsed i failure)))
       = outbox (world p) ++ [message_of s h]
    /\ suspended (step_event p (DelayElapsed i failure))
       = delete i (suspended p).
Proof.
  cbv zeta. intros Hi.
  destruct (run_keeps_invariant loggedOut API_KEY PORT table events _
              (boot_invariant table)) as (I1 & _).
  set (p := run_events events (boot table)) in *.
  assert (Hne : suspended p <> []).
  { intros E. rewrite E in Hi. discriminate. }
  destruct (sock (world p)) as [s|] eqn:Hs; [|now destruct I1; auto].
  exists s. split; [reflexivity|].
  unfold step. rewrite Hi. cbn [world suspended].
  destruct (handler_resume_effect h failure (world p) s Hs)
    as (response & w1 & Hr & R1 & _).
  rewrite Hr. now split.
Qed.

End ProcessProperties.

(* ===================================================================== *)
(** * Configuration and the reminder job *)
(* ===================================================================== *)

Section ConfigurationFacts.

Lemma validateApiKey_accepts (key : string) (req : Request) :
  validateApiKey key req = None
  <-> headers req !! "x-api-key" = Some key /\ key <> "".
Proof.
  unfold validateApiKey.
  destruct (headers req !! "x-api-key") as [k|];
    [|split; [discriminate|intros [? _]; discriminate]].
  destruct (String.eqb_spec k "") as [->|Hk]; cbn [orb].
  - split; [discriminate|]. intros [[= <-] H]. now destruct H.
  - destruct (String.eqb_spec k key) as [->|Hne]; cbn [negb].
    + split; auto.
    + split; [discriminate|]. intros [[= ->] _]. now destruct Hne.
Qed.

(** X27: whenever the module gets past its configuration check, both
    Supabase variables are set and non-empty and the API key is not
    empty.  A set, non-empty X_API_KEY is the key; with X_API_KEY unset
    or empty the key is the literal 'your-secret-api-key', so that a
    request is let through exactly when it carries that literal. *)
Theorem configured_api_key
  (env : gmap string string) (cfg : Config) (req : Request) :
  configure env = Configured cfg ->
  env_missing (env !! "SUPABASE_URL") = false
  /\ env_missing (env !! "SUPABASE_SERVICE_KEY") = false
  /\ api_key cfg <> ""
  /\ (forall k, env !! "X_API_KEY" = Some k -> k <> "" -> api_key cfg = k)
  /\ (env_missing (env !! "X_API_KEY") = true ->
      (validateApiKey (api_key cfg) req = None
       <-> headers req !! "x-api-key" = Some "your-secret-api-key")).
Proof.
  unfold configure.
  destruct (env_missing (env !! "SUPABASE_URL")); [discriminate|].
  destruct (env_missing (env !! "SUPABASE_SERVICE_KEY")); [discriminate|].
  cbn [orb]. intros [= <-]. cbn [api_key].
  split; [reflexivity|]. split; [reflexivity|].
  unfold env_or, env_missing.
  destruct (env !! "X_API_KEY") as [k|].
  - destruct (String.eqb_spec k "") as [->|Hk].
    + split; [discriminate|]. split; [intros k [= <-] H; now destruct H|].
      intros _. rewrite validateApiKey_accepts. split; [tauto|].
      intros H. split; [exact H|discriminate].
    + split; [exact Hk|]. split; [now intros k' [= <-] _|discriminate].
  - split; [discriminate|]. split; [discriminate|].
    intros _. rewrite validateApiKey_accepts. split; [tauto|].
    intros H. split; [exact H|discriminate].
Qed.

End ConfigurationFacts.

Section ReminderJobFacts.
Import JsString.

Lemma truthy_not_undefined (v : JsVal) :
  truthy v = true -> strict_eq v VUndefined = false.
Proof. now destruct v. Qed.

Lemma truthy_leaderPixKey (pix_key : JsVal) :
  truthy (leaderPixKey_of pix_key) = true.
Proof. unfold leaderPixKey_of, js_or. now destruct (truthy pix_key) eqn:E. Qed.

Lemma truthy_VStr (s : string) : s <> "" -> truthy (VStr s) = true.
Proof. intros H. cbn. now apply String.eqb_neq in H as ->. Qed.

(** X28: the reminder job and the endpoint agree.  Whenever the job
    picks a notification type (the bill is due tomorrow, today, or was
    due yesterday), the request it posts for a member with a phone
    number, a named group and a formatted amount passes the endpoint's
    validation and its type switch, whether or not the leader has a Pix
    key; and the message composed says what the job meant: "vence
    amanhã" one day before, "vence *HOJE*" on the day, "venceu ontem"
    one day after. *)
Theorem reminder_is_accepted
  (diffDays : Z) (t name value : string) (phone pix_key : JsVal)
  (hdrs : gmap string string) :
  notificationType_of diffDays = Some t ->
  truthy phone = true ->
  name <> "" ->
  value <> "" ->
  exists msg,
    prepare NotifyBilling
      {| headers := hdrs;
         body := billing_notification_body phone (VStr t) (VStr name)
                   (VStr value) (leaderPixKey_of pix_key) |}
    = inr (phone, msg, VStr t)
    /\ includes msg (if diffDays =? 1 then "vence amanhã"
                     else if diffDays =? 0 then "vence *HOJE*"
                     else "venceu ontem") = true.
Proof.
  intros Ht Hphone Hname Hvalue.
  pose proof (truthy_leaderPixKey pix_key) as Hpix.
  pose proof (truthy_VStr name Hname) as Hn.
  pose proof (truthy_VStr value Hvalue) as Hv.
  assert (Htt : truthy (VStr t) = true).
  { unfold notificationType_of in Ht.
    destruct (diffDays =? 1); [now injection Ht as <-|].
    destruct (diffDays =? 0); [now injection Ht as <-|].
    destruct (diffDays =? -1); [now injection Ht as <-|discriminate]. }
  unfold prepare, body_field, billing_notification_body, json_object.
  cbn [body List.filter snd].
  rewrite (truthy_not_undefined _ Hphone), (truthy_not_undefined _ Htt),
    (truthy_not_undefined _ Hn), (truthy_not_undefined _ Hv),
    (truthy_not_undefined _ Hpix).
  cbn [negb list_to_map foldr fst snd].
  repeat (rewrite ?lookup_insert_eq;
          rewrite ?lookup_insert_ne by discriminate).
  cbn [default from_option id]. rewrite Hphone, Htt, Hn, Hv, Hpix.
  cbn [negb orb].
  unfold notificationType_of in Ht. unfold billing_message.
  destruct (diffDays =? 1).
  { injection Ht as <-. eexists. split; [reflexivity|].
    unfold billing_message_D_minus_1.
    repeat first [apply includes_in_left; reflexivity
                 | apply includes_skip]. }
  destruct (diffDays =? 0).
  { injection Ht as <-. eexists. split; [reflexivity|].
    unfold billing_message_D0.
    repeat first [apply includes_in_left; reflexivity
                 | apply includes_skip]. }
  destruct (diffDays =? -1); [|discriminate].
  injection Ht as <-. eexists. split; [reflexivity|].
  unfold billing_message_D_plus_1.
  repeat first [apply includes_in_left; reflexivity | apply includes_skip].
Qed.

End ReminderJobFacts.

(* ===================================================================== *)
(** * Worked instances of the further properties *)
(* ===================================================================== *)

Section FurtherInstances.
Import Sample Scenario.

(** A delay between two and five seconds, at the draw 4095/4096. *)
Lemma randomDelay_between_min_and_max_at_near_one :
  in_unit_interval near_one = true
  /\ 2000 <= randomDelay_ms 2000 5000 near_one <= 5000.
Proof.
  split; [reflexivity|].
  apply (randomDelay_between_min_and_max 2000 5000 near_one);
    [reflexivity|lia|lia|reflexivity].
Defined.

(** The longest delay is reached. *)
Lemma randomDelay_reaches_every_delay_at_3000 :
  exists d : Draw,
    in_unit_interval d = true
    /\ randomDelay_ms DEFAULT_MIN_DELAY DEFAULT_MAX_DELAY d = 3000.
Proof. apply (randomDelay_reaches_every_delay 3000). lia. Defined.

(** The three spellings of a São Paulo mobile number. *)
Lemma formatPhoneNumber_spellings_agree_at_sao_paulo :
  formatPhoneNumber "11999999999" = "5511999999999@s.whatsapp.net"
  /\ formatPhoneNumber "011999999999" = "5511999999999@s.whatsapp.net"
  /\ formatPhoneNumber "5511999999999" = "5511999999999@s.whatsapp.net".
Proof.
  apply (formatPhoneNumber_spellings_agree "11999999999"); reflexivity.
Defined.

(** A mobile number of area code 55 (Santa Maria) loses its country
    code. *)
Lemma formatPhoneNumber_area_code_55_at_santa_maria :
  formatPhoneNumber "55999999999" = "55999999999@s.whatsapp.net"
  /\ formatPhoneNumber "5555999999999" = "5555999999999@s.whatsapp.net"
  /\ formatPhoneNumber "55999999999" <> formatPhoneNumber "5555999999999".
Proof.
  apply (formatPhoneNumber_area_code_55 "55999999999"); reflexivity.
Defined.



(** A pairing QR code changes nothing but the log; an "open" sets the
    flag. *)
Lemma connection_update_frame_at_pairing_and_open :
  isConnected (snd (on_connection_update LOGGED_OUT pairing connecting))
  = false
  /\ timers (snd (on_connection_update LOGGED_OUT pairing connecting)) = []
  /\ isConnected (snd (on_connection_update LOGGED_OUT opened connecting))
     = true.
Proof.
  destruct (connection_update_frame LOGGED_OUT pairing connecting)
    as (_ & _ & _ & _ & _ & H6 & H7).
  destruct (connection_update_frame LOGGED_OUT opened connecting)
    as (_ & _ & _ & _ & H5 & _).
  split; [apply H6; discriminate|].
  split; [apply H7; discriminate|apply H5; reflexivity].
Defined.

(** No network at start: one retry in ten seconds. *)
Lemma connect_failure_schedules_retry_at_offline :
  let r := connectToWhatsApp offline (initial_world ∅) in
  fst r = Returned tt
  /\ timers (snd r) = [] ++ [RETRY_TIMER]
  /\ sock (snd r) = None
  /\ isConnected (snd r) = false.
Proof.
  apply (connect_failure_schedules_retry offline (initial_world ∅)).
  left. discriminate.
Defined.

(** The store is unreachable at start: the socket is built all the
    same. *)
Lemma connect_survives_store_fault_at_outage :
  let env := {| version_failure := None; load_fault := unreachable;
                socket_failure := None |} in
  let r := connectToWhatsApp env (initial_world ∅) in
  fst r = Returned tt
  /\ timers (snd r) = []
  /\ isConnected (snd r) = false
  /\ exists state,
       sock (snd r) = Some {| sock_id := 0; authState := state |}
       /\ truthy (creds state) = true
       /\ truthy (keys state) = true.
Proof.
  apply (connect_survives_store_fault
           {| version_failure := None; load_fault := unreachable;
              socket_failure := None |} (initial_world ∅));
    reflexivity.
Defined.

(** A guessed key is turned away; the configured key reaches the
    handler. *)
Lemma unauthorized_request_has_no_effect_at_wrong_key :
  post_send_otp KEY otp_wrong_key calm connected
  = (Returned UNAUTHORIZED, connected)
  /\ post_send_otp KEY otp_request calm connected
     = send_otp_handler otp_request calm connected.
Proof.
  destruct (unauthorized_request_has_no_effect KEY send_otp_handler
              otp_wrong_key calm connected) as [H1 _].
  destruct (unauthorized_request_has_no_effect KEY send_otp_handler
              otp_request calm connected) as [_ H2].
  split; [apply H1; left; discriminate|].
  apply H2; [reflexivity|discriminate].
Defined.



(** The overdue notice of the fixture, when the transport rejects it. *)
Lemma handler_transport_failure_at_billing :
  exists w',
    notify_billing_handler billing_request transport_down connected
    = (Returned (error_response {| message := "Connection Closed" |}), w')
    /\ outbox w'
       = [{| via := 0; jid := "5511999999999@s.whatsapp.net";
             text := billing_message_D_plus_1 (VStr "Netflix Premium")
                       (VStr "14.90") (VStr "email@exemplo.com") |}]
    /\ logs w' = [error_log NotifyBilling {| message := "Connection Closed" |}].
Proof.
  apply (handler_transport_failure NotifyBilling billing_request
           transport_down connected live_sock "11999999999"
           (billing_message_D_plus_1 (VStr "Netflix Premium")
              (VStr "14.90") (VStr "email@exemplo.com"))
           (VStr "D+1") {| message := "Connection Closed" |});
    reflexivity.
Defined.

(** The number given as a JSON number. *)
Lemma handler_number_not_a_string_at_json_number :
  exists e,
    send_otp_handler otp_numeric_number calm connected
    = (Returned (error_response e), logged (error_log SendOtp e) connected).
Proof.
  apply (handler_number_not_a_string SendOtp otp_numeric_number calm
           connected live_sock (VNum 11999999999)
           (otp_message (VStr "123456")) VUndefined);
    [reflexivity|discriminate|reflexivity|reflexivity].
Defined.



(** The outcome of an OTP request served by an open session. *)
Lemma handler_outcomes_at_otp :
  exists response w',
    handler_of SendOtp otp_request calm connected = (Returned response, w')
    /\ (status response = 200 \/ status response = 400
        \/ status response = 500)
    /\ (status response = 400 -> w' = connected)
    /\ (status response = 200 ->
        exists m, outbox w' = outbox connected ++ [m]
                  /\ normalized_address (jid m) = true)
    /\ sock w' = sock connected /\ isConnected w' = isConnected connected
    /\ whatsapp_auth w' = whatsapp_auth connected.
Proof. apply (handler_outcomes SendOtp otp_request calm connected). Defined.

(** A logout in an open session, and an "open" before it. *)
Lemma gate_follows_lifecycle_at_logout_and_open :
  sendWhatsAppMessage (VStr "11999999999") "oi" calm
    (snd (on_connection_update LOGGED_OUT (close_with (VNum LOGGED_OUT))
            connected))
  = (Threw NOT_CONNECTED,
     snd (on_connection_update LOGGED_OUT (close_with (VNum LOGGED_OUT))
            connected))
  /\ outbox (snd (sendWhatsAppMessage (VStr "11999999999") "oi" calm
                    (snd (on_connection_update LOGGED_OUT opened connecting))))
     = [{| via := 0; jid := "5511999999999@s.whatsapp.net"; text := "oi" |}].
Proof.
  split.
  - apply (proj1 (gate_follows_lifecycle LOGGED_OUT
                    (close_with (VNum LOGGED_OUT)) connected
                    (VStr "11999999999") "11999999999" "oi" calm));
      reflexivity.
  - apply (proj2 (gate_follows_lifecycle LOGGED_OUT opened connecting
                    (VStr "11999999999") "11999999999" "oi" calm)
             eq_refl live_sock eq_refl).
Defined.

(** After start and "open": the flag is set and the socket is there. *)
Lemma flag_implies_socket_at_open :
  let p := run LOGGED_OUT KEY (VNum 3000)
             [Listening smooth; SocketConnectionUpdate opened] (boot ∅) in
  isConnected (world p) = true /\ sock (world p) <> None.
Proof.
  split; [reflexivity|].
  apply (flag_implies_socket LOGGED_OUT KEY (VNum 3000) ∅
           [Listening smooth; SocketConnectionUpdate opened]).
  left. reflexivity.
Defined.

(** The row of another session survives pairing and saving. *)
Lemma only_the_session_row_is_written_at_backup :
  whatsapp_auth (world (run LOGGED_OUT KEY (VNum 3000) pair_and_save
                          (boot shared_table))) !! "backup"
  = Some (Some paired_state).
Proof.
  apply (only_the_session_row_is_written LOGGED_OUT KEY (VNum 3000)
           shared_table pair_and_save "backup").
  discriminate.
Defined.

(** The timers of a start without network. *)
Lemma every_timer_in_range_at_requests_before_open :
  forallb draw_in_range requests_before_open = true
  /\ Forall (fun t => timer_in_range t = true)
       (timers (world (run LOGGED_OUT KEY (VNum 3000) requests_before_open
                         (boot ∅)))).
Proof.
  split; [reflexivity|].
  apply (every_timer_in_range LOGGED_OUT KEY (VNum 3000) ∅
           requests_before_open).
  reflexivity.
Defined.

(** Requests that arrive while the service is still pairing. *)
Lemma no_send_before_open_at_requests_before_open :
  isConnected (world (run LOGGED_OUT KEY (VNum 3000) requests_before_open
                        (boot ∅))) = false
  /\ outbox (world (run LOGGED_OUT KEY (VNum 3000) requests_before_open
                      (boot ∅))) = [].
Proof.
  apply (no_send_before_open LOGGED_OUT KEY (VNum 3000)
           requests_before_open (boot ∅)); reflexivity.
Defined.

(** A logout during the delay of an accepted request: the flag is
    cleared, and the message goes out all the same. *)
Lemma waiting_send_is_made_at_logout_during_delay :
  let p := run LOGGED_OUT KEY (VNum 3000) logout_during_delay (boot ∅) in
  isConnected (world p) = false
  /\ exists s,
       sock (world p) = Some s
       /\ outbox (world (step LOGGED_OUT KEY (VNum 3000) p
                           (DelayElapsed 0 None)))
          = outbox (world p) ++ [message_of s waiting_otp]
       /\ suspended (step LOGGED_OUT KEY (VNum 3000) p (DelayElapsed 0 None))
          = delete 0%nat (suspended p).
Proof.
  split; [reflexivity|].
  apply (waiting_send_is_made LOGGED_OUT KEY (VNum 3000) ∅
           logout_during_delay 0 waiting_otp None).
  reflexivity.
Defined.

(** An environment without X_API_KEY. *)
Lemma configured_api_key_at_default :
  api_key configuration <> ""
  /\ validateApiKey (api_key configuration) default_key_request = None.
Proof.
  destruct (configured_api_key environment configuration default_key_request
              eq_refl) as (_ & _ & H3 & _ & H5).
  split; [exact H3|]. apply (H5 eq_refl). reflexivity.
Defined.

(** A reminder one day after the due date, for a group whose leader
    has no Pix key. *)
Lemma reminder_is_accepted_at_overdue :
  exists msg,
    prepare NotifyBilling
      {| headers := ∅;
         body := billing_notification_body (VStr "11999999999") (VStr "D+1")
                   (VStr "Netflix Premium") (VStr "14.90")
                   (leaderPixKey_of VNull) |}
    = inr (VStr "11999999999", msg, VStr "D+1")
    /\ JsString.includes msg "venceu ontem" = true.
Proof.
  apply (reminder_is_accepted (-1) "D+1" "Netflix Premium" "14.90"
           (VStr "11999999999") VNull ∅);
    solve [reflexivity | discriminate].
Defined.

End FurtherInstances.
